(** * wanglib.instruments.tektronix: the TDS3000 oscilloscope driver

    A shallow embedding of [wanglib/instruments/tektronix.py].  The driver
    talks to an externally supplied bus object ([write], [read], [ask],
    [readall]); it is modelled as a tree of bus calls whose continuations
    receive the bus's replies, run against an arbitrary bus model.  Python 2
    byte strings are Rocq [string]s, Python floats are binary64 values
    ([spec_float] with [prec = 53], [emax = 1024]). *)

From Stdlib Require Import ZArith List String Ascii Bool Lia.
From Stdlib Require Import Decimal DecimalString.
From Stdlib Require Import SpecFloat.
Import ListNotations.
Local Open Scope string_scope.
Local Open Scope Z_scope.

(** ** Python byte strings *)

Module PyStr.

(** [str.isspace] on one byte of a Python 2 [str]: space, \t, \n, \v, \f, \r. *)
Definition isspace (c : ascii) : bool :=
  let n := N_of_ascii c in
  (N.eqb n 32 || (N.leb 9 n && N.leb n 13))%bool.

Definition isdigit (c : ascii) : bool :=
  let n := N_of_ascii c in (N.leb 48 n && N.leb n 57)%bool.

Definition digit_val (c : ascii) : Z := Z.of_N (N_of_ascii c) - 48.

(** [s.rstrip()] *)
Fixpoint rstrip (s : string) : string :=
  match s with
  | EmptyString => EmptyString
  | String c t =>
      match rstrip t with
      | EmptyString => if isspace c then EmptyString else String c EmptyString
      | t' => String c t'
      end
  end.

(** [s.lstrip()] *)
Fixpoint lstrip (s : string) : string :=
  match s with
  | EmptyString => EmptyString
  | String c t => if isspace c then lstrip t else s
  end.

(** [s.strip()] *)
Definition strip (s : string) : string := rstrip (lstrip s).

(** [len(s)] *)
Definition len (s : string) : Z := Z.of_nat (String.length s).

(** The value of a string of decimal digits, most significant first;
    [None] if some byte is not a digit. *)
Fixpoint digits_value (acc : Z) (s : string) : option Z :=
  match s with
  | EmptyString => Some acc
  | String c t =>
      if isdigit c then digits_value (10 * acc + digit_val c) t else None
  end.

(** One or more decimal digits. *)
Definition unsigned_value (s : string) : option Z :=
  match s with
  | EmptyString => None
  | _ => digits_value 0 s
  end.

(** [int(s)] for a byte string [s] (base 10): surrounding whitespace is
    ignored, one sign is allowed, the rest is one or more digits.
    [None] stands for [ValueError]. *)
Definition int (s : string) : option Z :=
  match strip s with
  | String "+" t => unsigned_value t
  | String "-" t => option_map Z.opp (unsigned_value t)
  | t => unsigned_value t
  end.

(** Decimal rendering of an integer, as [str(n)] and ["%d" % n] give it. *)
Definition of_Z (n : Z) : string :=
  NilZero.string_of_int (Z.to_int n).

End PyStr.

(** ** Python floats: IEEE 754 binary64 *)

Module PyFloat.

Definition prec : Z := 53.
Definition emax : Z := 1024.

(** A Python [float]. Finite values are kept in canonical form
    (see [valid]). *)
Definition float : Type := spec_float.

Definition valid (x : float) : bool := valid_binary prec emax x.

(** The binary64 value nearest to [n / d] (ties to even), with sign
    [neg]; this is the correctly rounded conversion that [float(s)],
    float literals and [round] perform. *)
Definition of_ratio (neg : bool) (n d : positive) : float :=
  SFdiv prec emax (S754_finite neg n 0) (S754_finite false d 0).

(** The binary64 value nearest to [m * 10^e10]. *)
Definition of_decimal (neg : bool) (m : Z) (e10 : Z) : float :=
  match m with
  | Zpos p =>
      if 0 <=? e10
      then of_ratio neg (p * Z.to_pos (10 ^ e10)) 1
      else of_ratio neg p (Z.to_pos (10 ^ (- e10)))
  | _ => S754_zero neg
  end.

(** A float literal of the source text, [m e e10] (for instance [4e-1]). *)
Definition lit (m : Z) (e10 : Z) : float := of_decimal false (Z.abs m) e10.

(** [float(n)] for an integer [n]. *)
Definition of_Z (n : Z) : float := of_decimal (n <? 0) (Z.abs n) 0.

(** The exact value [num / den] of the magnitude of a finite non-zero
    float [m * 2^e]. *)
Definition magnitude (m : positive) (e : Z) : positive * positive :=
  match e with
  | Z0 => (m, 1%positive)
  | Zpos k => ((m * 2 ^ k)%positive, 1%positive)
  | Zneg k => (m, (2 ^ k)%positive)
  end.

(** [x == y] on floats. *)
Definition eqb (x y : float) : bool := SFeqb x y.

(** Number of decimal digits of [n > 0], counted by dividing by ten;
    [fuel] is a bound on the number of divisions. *)
Fixpoint count_digits (fuel : nat) (n : Z) : Z :=
  match fuel with
  | O => 1
  | S fuel' => if n <? 10 then 1 else 1 + count_digits fuel' (n / 10)
  end.

(** Number of decimal digits of a positive integer (it has no more
    decimal digits than binary ones). *)
Definition digits10 (p : positive) : Z :=
  count_digits (Pos.to_nat (Pos.size p)) (Zpos p).

(** The decimal exponent [e] of [n / d]: [10^e <= n / d < 10^(e+1)]. *)
Definition sci_exp (n d : positive) : Z :=
  let e := digits10 n - digits10 d in
  if 0 <=? e
  then (if Zpos d * 10 ^ e <=? Zpos n then e else e - 1)
  else (if Zpos d <=? Zpos n * 10 ^ (- e) then e else e - 1).

(** [n / d] divided by [10^k], as a fraction of integers. *)
Definition scale10 (n d : positive) (k : Z) : Z * Z :=
  if 0 <=? k then (Zpos n, Zpos d * 10 ^ k) else (Zpos n * 10 ^ (- k), Zpos d).

(** Nearest integer to [a / b] (for [0 <= a], [0 < b]), halves to even. *)
Definition round_half_even (a b : Z) : Z :=
  let q := a / b in
  match 2 * (a mod b) ?= b with
  | Lt => q
  | Gt => q + 1
  | Eq => if Z.even q then q else q + 1
  end.

(** Nearest integer to [a / b] (for [0 <= a], [0 < b]), halves away
    from zero. *)
Definition round_half_away (a b : Z) : Z := (2 * a + b) / (2 * b).

(** The [ndigits] significant decimal digits of [n / d], correctly
    rounded (halves to even), with the decimal exponent of the first
    digit: the value is about [digits * 10^(e - ndigits + 1)]. *)
Definition sig_digits (ndigits : Z) (n d : positive) : Z * Z :=
  let e := sci_exp n d in
  let '(a, b) := scale10 n d (e - (ndigits - 1)) in
  let r := round_half_even a b in
  if 10 ^ ndigits <=? r then (r / 10, e + 1) else (r, e).

(** Exponent field of the [%e] family: sign and at least two digits. *)
Definition exp_field (e : Z) : string :=
  let sign := if e <? 0 then "-" else "+" in
  let pad := if Z.abs e <? 10 then "0" else "" in
  (sign ++ pad ++ PyStr.of_Z (Z.abs e))%string.

(** ["%.0E" % x] *)
Definition format_0E (x : float) : string :=
  match x with
  | S754_nan => "NAN"
  | S754_infinity s => (if s then "-INF" else "INF")
  | S754_zero s => ((if s then "-" else "") ++ "0E+00")%string
  | S754_finite s m e =>
      let '(n, d) := magnitude m e in
      let '(r, e10) := sig_digits 1 n d in
      ((if s then "-" else "") ++ PyStr.of_Z r ++ "E" ++ exp_field e10)%string
  end.

(** *** [float(s)] *)

(** The leading decimal digits of [s], and what follows them. *)
Fixpoint span_digits (s : string) : string * string :=
  match s with
  | EmptyString => (EmptyString, EmptyString)
  | String c t =>
      if PyStr.isdigit c
      then let '(ds, rest) := span_digits t in (String c ds, rest)
      else (EmptyString, s)
  end.

Definition lower (c : ascii) : ascii :=
  let n := N_of_ascii c in
  if (N.leb 65 n && N.leb n 90)%bool then ascii_of_N (n + 32) else c.

Fixpoint lower_str (s : string) : string :=
  match s with
  | EmptyString => EmptyString
  | String c t => String (lower c) (lower_str t)
  end.

(** An optional sign in front of [s]: whether it is a minus, and the rest. *)
Definition split_sign (s : string) : bool * string :=
  match s with
  | String "-" t => (true, t)
  | String "+" t => (false, t)
  | _ => (false, s)
  end.

(** The exponent part of a decimal float, after its [e] or [E]. *)
Definition exponent_value (s : string) : option Z :=
  let '(neg, ds) := split_sign s in
  option_map (fun e => if neg then - e else e) (PyStr.unsigned_value ds).

(** The decimal number [ip.fp e...] with sign [neg]. *)
Definition decimal_value (neg : bool) (ip fp rest : string) : option float :=
  match PyStr.unsigned_value (ip ++ fp) with
  | None => None
  | Some m =>
      match rest with
      | EmptyString => Some (of_decimal neg m (- PyStr.len fp))
      | String c t =>
          if (Ascii.eqb c "e" || Ascii.eqb c "E")%bool
          then option_map (fun e => of_decimal neg m (e - PyStr.len fp))
                          (exponent_value t)
          else None
      end
  end.

(** [float(s)] for a byte string [s]: surrounding whitespace is ignored;
    a sign, then [inf], [infinity] or [nan] in any case, or decimal digits
    with an optional point and an optional exponent.  [None] stands for
    [ValueError]. *)
Definition of_string (s : string) : option float :=
  let '(neg, body) := split_sign (PyStr.strip s) in
  let word := lower_str body in
  if (String.eqb word "inf" || String.eqb word "infinity")%bool
  then Some (S754_infinity neg)
  else if String.eqb word "nan" then Some S754_nan
  else
    let '(ip, after_int) := span_digits body in
    match after_int with
    | String "." t =>
        let '(fp, rest) := span_digits t in decimal_value neg ip fp rest
    | _ => decimal_value neg ip EmptyString after_int
    end.

(** *** [repr(x)] *)

(** The shortest decimal digits that convert back to [m * 2^e]: the
    digits as an integer, and the decimal exponent of the first digit.
    Tried with [k], [k + 1], ... digits; seventeen always suffice. *)
Fixpoint shortest_digits (fuel : nat) (k : Z) (m : positive) (e : Z) : Z * Z :=
  let '(n, d) := magnitude m e in
  let '(r, e10) := sig_digits k n d in
  match fuel with
  | O => (r, e10)
  | S fuel' =>
      if eqb (of_decimal false r (e10 - (k - 1))) (S754_finite false m e)
      then (r, e10)
      else shortest_digits fuel' (k + 1) m e
  end.

Fixpoint zeros (n : nat) : string :=
  match n with
  | O => EmptyString
  | S n' => String "0" (zeros n')
  end.

(** Digits [ds] with the decimal point after the first [decpt] of them,
    in positional notation, as [repr] writes it. *)
Definition positional (ds : string) (decpt : Z) : string :=
  let n := PyStr.len ds in
  if decpt <=? 0 then ("0." ++ zeros (Z.to_nat (- decpt)) ++ ds)%string
  else if decpt <? n
  then (substring 0 (Z.to_nat decpt) ds ++ "."
        ++ substring (Z.to_nat decpt) (Z.to_nat (n - decpt)) ds)%string
  else (ds ++ zeros (Z.to_nat (decpt - n)) ++ ".0")%string.

(** Digits [ds] in exponent notation, as [repr] writes it. *)
Definition exponential (ds : string) (decpt : Z) : string :=
  match ds with
  | EmptyString => EmptyString
  | String c EmptyString => (String c "e" ++ exp_field (decpt - 1))%string
  | String c t => (String c "." ++ t ++ "e" ++ exp_field (decpt - 1))%string
  end.

(** [repr(x)]: the shortest digits that read back as [x], in exponent
    notation when the decimal point falls more than three places before
    or more than sixteen places after the first digit. *)
Definition repr (x : float) : string :=
  match x with
  | S754_nan => "nan"
  | S754_infinity s => if s then "-inf" else "inf"
  | S754_zero s => if s then "-0.0" else "0.0"
  | S754_finite s m e =>
      let '(r, e10) := shortest_digits 16 1 m e in
      let ds := PyStr.of_Z r in
      let decpt := e10 + 1 in
      let body := if ((decpt <=? -4) || (16 <? decpt))%bool
                  then exponential ds decpt else positional ds decpt in
      ((if s then "-" else "") ++ body)%string
  end.

End PyFloat.

(** ** Python numbers and tuples of numbers *)

Module Py.

(** An [int] or a [float]. *)
Inductive number : Type :=
| PyInt (n : Z)
| PyFloat (x : PyFloat.float).

Definition to_float (v : number) : PyFloat.float :=
  match v with
  | PyInt n => PyFloat.of_Z n
  | PyFloat x => x
  end.

(** [v == x] for a number [v] and a float [x]. *)
Definition eq_float (v : number) (x : PyFloat.float) : bool :=
  PyFloat.eqb (to_float v) x.

(** [x in t] for a float [x] and a tuple [t] of numbers. *)
Definition contains (t : list number) (x : PyFloat.float) : bool :=
  existsb (fun v => eq_float v x) t.

Definition repr (v : number) : string :=
  match v with
  | PyInt n => PyStr.of_Z n
  | PyFloat x => PyFloat.repr x
  end.

Fixpoint join (sep : string) (l : list string) : string :=
  match l with
  | [] => EmptyString
  | [x] => x
  | x :: rest => (x ++ sep ++ join sep rest)%string
  end.

(** [str(t)] for a tuple [t] of numbers. *)
Definition str_tuple (t : list number) : string :=
  match t with
  | [x] => ("(" ++ repr x ++ ",)")%string
  | _ => ("(" ++ join ", " (map repr t) ++ ")")%string
  end.

End Py.

(** ** Exceptions and results *)

Inductive exn : Type :=
| InstrumentError (msg : string)   (* wanglib.util.InstrumentError *)
| ValueError                       (* raised by int(), float(), numpy *)
| TypeError                        (* raised by numpy for a bad dtype *)
| BusFailure (what : string).      (* whatever else a bus method raises *)

Inductive result (A : Type) : Type :=
| Ok (a : A)
| Raised (e : exn).
Arguments Ok {A} a.
Arguments Raised {A} e.

Definition of_option {A : Type} (e : exn) (o : option A) : result A :=
  match o with
  | Some a => Ok a
  | None => Raised e
  end.

(** ** wanglib.util *)

Module Util.

(** Modelled from the spec: [wanglib.util.sciround] is imported by the
    driver but its source is not part of the files at hand.  The
    specification describes it as rounding to [sigfigs] significant
    digits (one, in the driver), halves away from zero, on the mantissa
    of the scientific notation of the number.  The exact binary value
    [n / d] of the float is written [mant * 10^e10]; the mantissa, scaled
    to [sigfigs] digits, is rounded to the nearest integer; the result is
    the float nearest to that decimal.  Zero, infinities and NaN have no
    such mantissa and are returned as they are. *)
Definition sciround (number : PyFloat.float) (sigfigs : Z) : PyFloat.float :=
  match number with
  | S754_finite s m e =>
      let '(n, d) := PyFloat.magnitude m e in
      let k := PyFloat.sci_exp n d - (sigfigs - 1) in
      let '(a, b) := PyFloat.scale10 n d k in
      PyFloat.of_decimal s (PyFloat.round_half_away a b) k
  | _ => number
  end.

End Util.

(** ** numpy *)

Module Numpy.

(** A dtype of integers: byte order, signedness, bytes per element. *)
Record dtype : Type := mk_dtype {
  big_endian : bool;
  signed : bool;
  itemsize : nat
}.

Record ndarray : Type := mk_ndarray {
  arr_dtype : dtype;
  elems : list Z
}.

(** A C integer that takes up the whole of [s], as [strtol] reads it in
    base ten: optional leading whitespace, an optional sign, one or more
    digits, and nothing after them. *)
Definition c_integer (s : string) : option Z :=
  match PyStr.lstrip s with
  | String "+" t => PyStr.unsigned_value t
  | String "-" t => option_map Z.opp (PyStr.unsigned_value t)
  | t => PyStr.unsigned_value t
  end.

(** The element size named by what follows the kind character: numpy
    reads it as a C integer, and integers come in 1, 2, 4 and 8 bytes.
    With nothing after it, [i] is the C [int]; [u] alone names no type. *)
Definition width_of (is_signed : bool) (w : string) : option nat :=
  if String.eqb w "" then (if is_signed then Some 4%nat else None)
  else
    match c_integer w with
    | Some 1 => Some 1%nat
    | Some 2 => Some 2%nat
    | Some 4 => Some 4%nat
    | Some 8 => Some 8%nat
    | _ => None
    end.

(** [numpy.dtype(fmt)] for the type strings the driver builds: a byte
    order [>] or [<], a kind [i] or [u], and the size in bytes.  Any
    other string is rejected ([None] stands for [TypeError]). *)
Definition parse_dtype (fmt : string) : option dtype :=
  match fmt with
  | String o (String k w) =>
      let order := if Ascii.eqb o ">" then Some true
                   else if Ascii.eqb o "<" then Some false else None in
      let kind := if Ascii.eqb k "i" then Some true
                  else if Ascii.eqb k "u" then Some false else None in
      match order, kind with
      | Some be, Some sg => option_map (mk_dtype be sg) (width_of sg w)
      | _, _ => None
      end
  | _ => None
  end.

Definition byte_val (c : ascii) : Z := Z.of_N (N_of_ascii c).

(** The unsigned value of bytes read most significant first. *)
Definition unsigned_be (bytes : list ascii) : Z :=
  fold_left (fun acc c => 256 * acc + byte_val c) bytes 0.

(** Two's complement reading of an unsigned value on [w] bytes. *)
Definition to_signed (w : nat) (v : Z) : Z :=
  if 2 ^ (8 * Z.of_nat w - 1) <=? v then v - 2 ^ (8 * Z.of_nat w) else v.

(** One element of the array, from its [itemsize dt] bytes. *)
Definition decode_elem (dt : dtype) (bytes : list ascii) : Z :=
  let v := unsigned_be (if big_endian dt then bytes else List.rev bytes) in
  if signed dt then to_signed (itemsize dt) v else v.

(** The first [count] groups of [w] bytes. *)
Fixpoint chunks (w : nat) (count : nat) (bytes : list ascii) : list (list ascii) :=
  match count with
  | O => []
  | S count' => firstn w bytes :: chunks w count' (skipn w bytes)
  end.

Definition decode (dt : dtype) (bytes : list ascii) : list Z :=
  map (decode_elem dt)
      (chunks (itemsize dt) (Nat.div (List.length bytes) (itemsize dt)) bytes).

(** [numpy.fromstring(data, dtype=fmt)], binary mode: the bytes of
    [data] reinterpreted as consecutive elements; [ValueError] when the
    length is not a multiple of the element size. *)
Definition fromstring (data : string) (fmt : string) : result ndarray :=
  match parse_dtype fmt with
  | None => Raised TypeError
  | Some dt =>
      let bytes := list_ascii_of_string data in
      if Nat.eqb (Nat.modulo (List.length bytes) (itemsize dt)) 0
      then Ok (mk_ndarray dt (decode dt bytes))
      else Raised ValueError
  end.

End Numpy.

(** ** The bus and the driver's interaction with it *)

(** A reference to a bus object: one handed to the constructor, or the
    serial port the constructor opens by default. *)
Inductive bus_ref : Type :=
| BusObject (id : positive)
| Serial (port : string) (rtscts : bool) (term_chars : string).

(** The bus methods the driver calls. [Read None] is [read()],
    [Read (Some n)] is [read(n)]. *)
Inductive call : Type :=
| Readall
| Write (command : string)
| Read (n : option Z)
| Ask (command : string).

Definition event : Type := bus_ref * call.

(** A computation that calls bus methods and continues with what each one
    returns or raises. *)
Inductive action (R : Type) : Type :=
| Return (r : R)
| Invoke (b : bus_ref) (c : call) (k : result string -> action R).
Arguments Return {R} r.
Arguments Invoke {R} b c k.

(** A method of an object of state [S]: from the object's state, a
    computation that ends with the object's state and the value returned
    or the exception raised. *)
Definition method (S A : Type) : Type := S -> action (S * result A).

Section Method.
Context {S : Type}.

Definition ret {A : Type} (a : A) : method S A :=
  fun self => Return (self, Ok a).

Definition raise {A : Type} (e : exn) : method S A :=
  fun self => Return (self, Raised e).

Fixpoint action_bind {A B : Type} (p : action (S * result A))
    (f : A -> method S B) : action (S * result B) :=
  match p with
  | Return (self, Ok a) => f a self
  | Return (self, Raised e) => Return (self, Raised e)
  | Invoke b c k => Invoke b c (fun r => action_bind (k r) f)
  end.

Definition bind {A B : Type} (m : method S A) (f : A -> method S B)
    : method S B :=
  fun self => action_bind (m self) f.

(** A value computed without the bus, or the exception it raises. *)
Definition lift {A : Type} (r : result A) : method S A :=
  fun self => Return (self, r).

(** [self.<field>.<call>]: the bus is read from the object, the method
    is called on it, and what it raises propagates. *)
Definition bus_call (field : S -> bus_ref) (c : call) : method S string :=
  fun self => Invoke (field self) c (fun r => Return (self, r)).

End Method.

Notation "x <- m ;; k" := (bind m (fun x => k))
  (at level 61, m at next level, right associativity).

(** A method of a sub-object held in a field of [self]. *)
Fixpoint zoom_action {S T A : Type} (put : S -> T -> S)
    (self : S) (p : action (T * result A)) : action (S * result A) :=
  match p with
  | Return (sub, r) => Return (put self sub, r)
  | Invoke b c k => Invoke b c (fun r => zoom_action put self (k r))
  end.

Definition zoom {S T A : Type} (get : S -> T) (put : S -> T -> S)
    (m : method T A) : method S A :=
  fun self => zoom_action put self (m (get self)).

(** A model of the world the driver runs in: the state of the buses and
    the instruments behind them, and what each bus method does there. *)
Record World : Type := mk_World {
  wstate : Type;
  handle : wstate -> bus_ref -> call -> result string * wstate
}.

(** Running a computation: the bus calls made, in order, the outcome,
    and the final state of the world. *)
Fixpoint run {R : Type} (W : World) (p : action R) (s : wstate W)
    : list event * R * wstate W :=
  match p with
  | Return r => ([], r, s)
  | Invoke b c k =>
      let '(reply, s1) := handle W s b c in
      let '(tr, r, s2) := run W (k reply) s1 in
      ((b, c) :: tr, r, s2)
  end.

(** What the world answers to a sequence of bus calls. *)
Fixpoint feed (W : World) (s : wstate W) (evs : list event)
    : list (result string) * wstate W :=
  match evs with
  | [] => ([], s)
  | (b, c) :: rest =>
      let '(reply, s1) := handle W s b c in
      let '(replies, s2) := feed W s1 rest in
      (reply :: replies, s2)
  end.

(** ** class TDS3000 *)

Module TDS3000.

(** *** class _Wfmpre(dict): waveform formatting parameters *)
Module _Wfmpre.

(** The object: the entries of the underlying [dict] and the [bus]
    attribute. *)
Record t : Type := mk {
  items : list (string * string);
  bus : bus_ref
}.

(** [__init__] sets the attribute; the dictionary starts empty. *)
Definition __init__ (bus : bus_ref) : t := mk [] bus.

Definition __getitem__ (key : string) : method t string :=
  reply <- bus_call bus (Ask ("WFMP:" ++ key ++ "?")) ;;
  let result := PyStr.rstrip reply in
  ret result.

End _Wfmpre.

Record t : Type := mk {
  bus : bus_ref;
  wfmpre : _Wfmpre.t
}.

Definition set_wfmpre (self : t) (w : _Wfmpre.t) : t := mk (bus self) w.

Definition __init__ (bus : option bus_ref) : t :=
  let bus := match bus with
             | None => Serial "/dev/ttyS0" true (String "010" EmptyString)
             | Some b => b
             end in
  mk bus (_Wfmpre.__init__ bus).

(** [self.wfmpre[key]] *)
Definition wfmpre_item (key : string) : method t string :=
  zoom wfmpre set_wfmpre (_Wfmpre.__getitem__ key).

(** [int(s)], raising [ValueError]. *)
Definition int (s : string) : method t Z :=
  lift (of_option ValueError (PyStr.int s)).

Definition get_curve : method t Numpy.ndarray :=
  _ <- bus_call bus Readall ;;
  _ <- bus_call bus (Write "CURV?") ;;
  result <- bus_call bus (Read None) ;;
  result <-
    (if String.eqb result "#" then
       d <- bus_call bus (Read (Some 1)) ;;
       meta_len <- int d ;;
       l <- bus_call bus (Read (Some meta_len)) ;;
       data_len <- int l ;;
       result <- bus_call bus (Read (Some data_len)) ;;
       _ <- bus_call bus (Read (Some 1)) ;;
       ret result
     else if PyStr.len result =? 1 then
       raise (InstrumentError ("Unknown first byte: " ++ result))
     else ret result) ;;
  byt_or <- wfmpre_item "BYT_OR" ;;
  let fmt := if String.eqb byt_or "MSB" then ">" else "<" in
  bn_fmt <- wfmpre_item "BN_FMT" ;;
  let fmt := fmt ++ (if String.eqb bn_fmt "RI" then "i" else "u") in
  byt_nr <- wfmpre_item "BYT_NR" ;;
  let fmt := fmt ++ byt_nr in
  lift (Numpy.fromstring result fmt).

Definition get_timediv : method t PyFloat.float :=
  result <- bus_call bus (Ask "HOR:MAI:SCA?") ;;
  lift (of_option ValueError (PyFloat.of_string (PyStr.rstrip result))).

Definition _acceptable_timedivs : list Py.number :=
  let f m e := Py.PyFloat (PyFloat.lit m e) in
  [ Py.PyInt 10; Py.PyInt 4; Py.PyInt 2; Py.PyInt 1;
    f 4 (-1); f 2 (-1); f 1 (-1);
    f 4 (-2); f 2 (-2); f 1 (-2);
    f 4 (-3); f 2 (-3); f 1 (-3);
    f 4 (-4); f 2 (-4); f 1 (-4);
    f 4 (-5); f 2 (-5); f 1 (-5);
    f 4 (-6); f 2 (-6); f 1 (-6);
    f 4 (-7); f 2 (-7); f 1 (-7);
    f 4 (-8); f 2 (-8); f 1 (-8);
    f 4 (-9); f 2 (-9); f 1 (-9) ].

Definition set_timediv (to : PyFloat.float) : method t unit :=
  let to := Util.sciround to 1 in
  if Py.contains _acceptable_timedivs to then
    _ <- bus_call bus (Write ("HOR:MAI:SCA " ++ PyFloat.format_0E to)) ;;
    ret tt
  else
    raise (InstrumentError
             ("Timediv not in " ++ Py.str_tuple _acceptable_timedivs)).

(** [timediv = property(get_timediv, set_timediv)] *)
Definition timediv : method t PyFloat.float * (PyFloat.float -> method t unit) :=
  (get_timediv, set_timediv).

End TDS3000.

(** ** A simulated oscilloscope on a bus, to run the driver against *)

Module SimScope.

(** The simulated instrument: whether [read()] gives one byte (RS-232)
    or all that is pending (GPIB), the pending input, the reply it sends
    to [CURV?], its settings, and the commands written so far. *)
Record state : Type := mk {
  bytewise : bool;
  pending : string;
  curve : string;
  settings : list (string * string);
  written : list string
}.

Fixpoint lookup (k : string) (l : list (string * string)) : option string :=
  match l with
  | [] => None
  | (k', v) :: rest => if String.eqb k k' then Some v else lookup k rest
  end.

Definition take (n : Z) (s : string) : string :=
  substring 0 (Z.to_nat n) s.

Definition drop (n : Z) (s : string) : string :=
  substring (Z.to_nat n) (String.length s - Z.to_nat n) s.

Definition step (s : state) (b : bus_ref) (c : call) : result string * state :=
  match c with
  | Readall =>
      (Ok (pending s), mk (bytewise s) "" (curve s) (settings s) (written s))
  | Write cmd =>
      let inbuf := if String.eqb cmd "CURV?" then pending s ++ curve s
                   else pending s in
      (Ok "", mk (bytewise s) inbuf (curve s) (settings s) (written s ++ [cmd]))
  | Read None =>
      let n := if bytewise s then 1 else PyStr.len (pending s) in
      (Ok (take n (pending s)),
       mk (bytewise s) (drop n (pending s)) (curve s) (settings s) (written s))
  | Read (Some n) =>
      (Ok (take n (pending s)),
       mk (bytewise s) (drop n (pending s)) (curve s) (settings s) (written s))
  | Ask cmd =>
      match lookup cmd (settings s) with
      | Some v => (Ok (v ++ String "010" EmptyString), s)
      | None => (Raised (BusFailure "timeout"), s)
      end
  end.

Definition world : World := mk_World state step.

End SimScope.

(** A bus that answers every call with the number of calls made before it:
    no two answers are the same. *)
Module Counter.

Definition step (n : Z) (b : bus_ref) (c : call) : result string * Z :=
  (Ok (PyStr.of_Z n ++ String "010" EmptyString), n + 1).

Definition world : World := mk_World Z step.

End Counter.

(** ** Vocabulary of the statements *)

(** Running a computation against a given list of replies, without a world:
    the calls made and the outcome, when the replies are exactly as many as
    the calls. *)
Fixpoint replay {R : Type} (p : action R) (replies : list (result string))
    : option (list event * R) :=
  match p, replies with
  | Return r, [] => Some ([], r)
  | Return _, _ :: _ => None
  | Invoke _ _ _, [] => None
  | Invoke b c k, x :: xs =>
      match replay (k x) xs with
      | Some (tr, r) => Some ((b, c) :: tr, r)
      | None => None
      end
  end.

Definition result_map {A B : Type} (f : A -> B) (r : result A) : result B :=
  match r with
  | Ok a => Ok (f a)
  | Raised e => Raised e
  end.

(** The object a method leaves behind, and what it returned or raised. *)
Definition self_after {S A W : Type} (out : list event * (S * result A) * W) : S :=
  fst (snd (fst out)).

Definition outcome {S A W : Type} (out : list event * (S * result A) * W)
    : result A :=
  snd (snd (fst out)).

(** A byte of a given value. *)
Definition byte (v : Z) : ascii := ascii_of_N (Z.to_N v).

(** The two bytes of a signed 16-bit integer, most significant first
    (two's complement). *)
Definition be_int16 (v : Z) : string :=
  let u := v mod 65536 in
  String (byte (u / 256)) (String (byte (u mod 256)) EmptyString).

Definition newline : string := String "010" EmptyString.

(** The numpy type string for given preamble values. *)
Definition curve_format (byt_or bn_fmt byt_nr : string) : string :=
  (((if String.eqb byt_or "MSB" then ">" else "<")
    ++ (if String.eqb bn_fmt "RI" then "i" else "u"))
   ++ byt_nr)%string.

(** The calls [get_curve] makes to fetch a block of [data_len] bytes whose
    length field has [meta_len] digits, and the three preamble queries. *)
Definition block_reads (self : TDS3000.t) (meta_len data_len : Z) : list event :=
  map (pair (TDS3000.bus self))
      [Readall; Write "CURV?"; Read None; Read (Some 1); Read (Some meta_len);
       Read (Some data_len); Read (Some 1)].

Definition preamble_queries (self : TDS3000.t) : list event :=
  map (pair (TDS3000._Wfmpre.bus (TDS3000.wfmpre self)))
      [Ask "WFMP:BYT_OR?"; Ask "WFMP:BN_FMT?"; Ask "WFMP:BYT_NR?"].

(** The query [self.wfmpre[key]] sends. *)
Definition wfmp_query (w : TDS3000._Wfmpre.t) (key : string) : event :=
  (TDS3000._Wfmpre.bus w, Ask ("WFMP:" ++ key ++ "?")).

(** Two accesses to the same key, one after the other. *)
Definition getitem_twice (key : string) : method TDS3000._Wfmpre.t (string * string) :=
  x <- TDS3000._Wfmpre.__getitem__ key ;;
  y <- TDS3000._Wfmpre.__getitem__ key ;;
  ret (x, y).

(** The message of the error [set_timediv] raises. *)
Definition timediv_message : string :=
  "Timediv not in (10, 4, 2, 1, 0.4, 0.2, 0.1, 0.04, 0.02, 0.01, 0.004, 0.002, 0.001, 0.0004, 0.0002, 0.0001, 4e-05, 2e-05, 1e-05, 4e-06, 2e-06, 1e-06, 4e-07, 2e-07, 1e-07, 4e-08, 2e-08, 1e-08, 4e-09, 2e-09, 1e-09)".

Definition float_eq_dec (x y : PyFloat.float) : {x = y} + {x <> y}.
Proof.
  decide equality; try apply Bool.bool_dec; try apply Z.eq_dec; apply Pos.eq_dec.
Defined.

Definition float_same (x y : PyFloat.float) : bool :=
  if float_eq_dec x y then true else false.

(** The scientific notation of the magnitude [m * 2^e] of a finite float:
    the mantissa as a fraction [a / b], and the decimal exponent [k]. *)
Definition sci_notation (m : positive) (e : Z) : Z * Z * Z :=
  let '(n, d) := PyFloat.magnitude m e in
  let k := PyFloat.sci_exp n d in
  let '(a, b) := PyFloat.scale10 n d k in
  (a, b, k).

(** [r] is the integer nearest to [a / b], the one further from zero when
    [a / b] lies half way between two integers ([0 <= a], [0 < b]). *)
Definition nearest_half_away (a b r : Z) : Prop :=
  b * (2 * r - 1) <= 2 * a < b * (2 * r + 1).

(** A method leaves its object as it found it, in every world, whether it
    returns or raises. *)
Definition preserves {S A : Type} (m : method S A) : Prop :=
  forall (W : World) (s : wstate W) (self : S),
    self_after (run W (m self) s) = self.

(** The accepted value [v] survives the rounding and the membership test
    of [set_timediv]. *)
Definition stable_timediv (v : Py.number) : bool :=
  (float_same (Util.sciround (Py.to_float v) 1) (Py.to_float v)
   && Py.contains TDS3000._acceptable_timedivs (Py.to_float v))%bool.

(** The command [set_timediv] writes for a rounded value. *)
Definition timediv_command (x : PyFloat.float) : string :=
  "HOR:MAI:SCA " ++ PyFloat.format_0E x.

(** ** A bench set-up for concrete runs *)

(** A driver constructed on a given bus. *)
Definition scope : TDS3000.t := TDS3000.__init__ (Some (BusObject 1)).

(** A simulated instrument set to big-endian signed 16-bit samples and one
    millisecond per division, with some stale bytes pending on the bus. *)
Definition bench (bytewise : bool) (curve : string) : SimScope.state :=
  SimScope.mk bytewise "stale" curve
    [("WFMP:BYT_OR?", "MSB"); ("WFMP:BN_FMT?", "RI"); ("WFMP:BYT_NR?", "2");
     ("HOR:MAI:SCA?", "1.0000E-3")]
    [].

(** The same instrument after a run: nothing pending, and the commands
    written to it. *)
Definition bench_after (bytewise : bool) (curve : string) (pending : string)
    (written : list string) : SimScope.state :=
  SimScope.mk bytewise pending curve
    [("WFMP:BYT_OR?", "MSB"); ("WFMP:BN_FMT?", "RI"); ("WFMP:BYT_NR?", "2");
     ("HOR:MAI:SCA?", "1.0000E-3")]
    written.

(** A block as the instrument sends it: [#], one digit for the length of
    the length field, the length 4, four bytes of samples (258 and -2 as
    big-endian signed 16-bit integers), and a newline. *)
Definition sample_block : string :=
  "#14" ++ String "001" (String "002" (String "255" (String "254" newline))).

(** ** Vocabulary of the further statements *)

(** The bus calls made during a run, in order. *)
Definition calls {S A W : Type} (out : list event * (S * result A) * W)
    : list event :=
  fst (fst out).

(** [l1] is an initial segment of [l2]. *)
Definition prefix_of (l1 l2 : list event) : Prop :=
  exists rest, l2 = (l1 ++ rest)%list.

(** The calls [get_curve] makes when the whole reply comes with the first
    read: no header reads. *)
Definition direct_reads (self : TDS3000.t) : list event :=
  map (pair (TDS3000.bus self)) [Readall; Write "CURV?"; Read None].

(** A property of every path through a computation: of the calls made
    with the reply to each, and of the outcome, whatever the replies are. *)
Fixpoint along {R : Type} (P : list (event * result string) -> R -> Prop)
    (p : action R) : Prop :=
  match p with
  | Return r => P [] r
  | Invoke b c k =>
      forall reply, along (fun h r => P ((b, c, reply) :: h) r) (k reply)
  end.

(** The calls of a run, each with the reply the world gave. *)
Definition history {S A : Type} (W : World) (s : wstate W)
    (out : list event * (S * result A) * wstate W)
    : list (event * result string) :=
  combine (calls out) (fst (feed W s (calls out))).

(** No call follows a call that raised, and the outcome [r] is the
    exception of the call that raised, if one did. *)
Fixpoint stops_at_failure {A : Type} (h : list (event * result string))
    (r : result A) : Prop :=
  match h with
  | [] => True
  | (_, Ok _) :: rest => stops_at_failure rest r
  | (_, Raised e) :: rest => rest = [] /\ r = Raised e
  end.

(** The serial port the constructor opens when it is given no bus. *)
Definition default_bus : bus_ref := Serial "/dev/ttyS0" true newline.

(** The [w] bytes of [u], most significant first. *)
Fixpoint be_bytes (w : nat) (u : Z) : list ascii :=
  match w with
  | O => []
  | S w' => (be_bytes w' (u / 256) ++ [byte (u mod 256)])%list
  end.

(** The bytes of one sample [v] in the layout [dt]: two's complement on
    [itemsize dt] bytes, in the byte order of [dt]. *)
Definition encode_elem (dt : Numpy.dtype) (v : Z) : list ascii :=
  let bytes := be_bytes (Numpy.itemsize dt)
                 (v mod 256 ^ Z.of_nat (Numpy.itemsize dt)) in
  if Numpy.big_endian dt then bytes else List.rev bytes.

(** The raw block of a list of samples. *)
Definition encode (dt : Numpy.dtype) (samples : list Z) : string :=
  string_of_list_ascii (List.concat (map (encode_elem dt) samples)).

(** The values an element of layout [dt] can take. *)
Definition in_range (dt : Numpy.dtype) (v : Z) : Prop :=
  if Numpy.signed dt
  then - 2 ^ (8 * Z.of_nat (Numpy.itemsize dt) - 1) <= v
       < 2 ^ (8 * Z.of_nat (Numpy.itemsize dt) - 1)
  else 0 <= v < 2 ^ (8 * Z.of_nat (Numpy.itemsize dt)).

(** Only whitespace. *)
Definition all_space (s : string) : bool :=
  forallb PyStr.isspace (list_ascii_of_string s).

(** The commands [set_timediv] can write: one for each accepted value. *)
Definition timediv_commands : list string :=
  map (fun v => timediv_command (Py.to_float v)) TDS3000._acceptable_timedivs.

Definition is_finite (x : PyFloat.float) : bool :=
  match x with
  | S754_finite _ _ _ => true
  | _ => false
  end.

(** The text written for the accepted value [v] reads back as [v]. *)
Definition reads_back (v : Py.number) : bool :=
  match PyFloat.of_string (PyStr.rstrip (PyFloat.format_0E (Py.to_float v))) with
  | Some x => float_same x (Py.to_float v)
  | None => false
  end.

(** [scope.timediv = to], then [scope.timediv]. *)
Definition set_then_get (to : PyFloat.float) : method TDS3000.t PyFloat.float :=
  _ <- TDS3000.set_timediv to ;;
  TDS3000.get_timediv.

(** An instrument that keeps the time per division it is sent and
    answers the query with it; it starts with nothing to answer. *)
Module EchoScope.

Definition prefix : string := "HOR:MAI:SCA ".

Definition step (held : string) (b : bus_ref) (c : call)
    : result string * string :=
  match c with
  | Write cmd =>
      if String.eqb (substring 0 (String.length prefix) cmd) prefix
      then (Ok "", substring (String.length prefix)
                     (String.length cmd - String.length prefix) cmd)
      else (Ok "", held)
  | Ask _ => (Ok (held ++ newline), held)
  | _ => (Ok "", held)
  end.

Definition world : World := mk_World string step.

End EchoScope.

(** A simulated instrument set to little-endian unsigned 16-bit samples,
    before and after a waveform is fetched from it. *)
Definition bench_lsb (pending : string) (written : list string)
    : SimScope.state :=
  SimScope.mk true pending sample_block
    [("WFMP:BYT_OR?", "LSB"); ("WFMP:BN_FMT?", "RP"); ("WFMP:BYT_NR?", "2")]
    written.

(** Two waveforms fetched one after the other. *)
Definition get_curve_twice
    : method TDS3000.t (Numpy.ndarray * Numpy.ndarray) :=
  first <- TDS3000.get_curve ;;
  second <- TDS3000.get_curve ;;
  ret (first, second).

(** A bus that answers the calls made to it with a prepared list of
    replies, one after the other, and fails when the list is used up. *)
Module Scripted.

Definition step (replies : list (result string)) (b : bus_ref) (c : call)
    : result string * list (result string) :=
  match replies with
  | [] => (Raised (BusFailure "no reply"), [])
  | reply :: rest => (reply, rest)
  end.

Definition world : World := mk_World (list (result string)) step.

End Scripted.

(** The replies to one [get_curve] over a byte-wise bus: a block of four
    payload bytes, then the preamble answers. *)
Definition acquisition (payload byt_or bn_fmt byt_nr : string)
    : list (result string) :=
  [Ok ""; Ok ""; Ok "#"; Ok "1"; Ok "4"; Ok payload; Ok newline;
   Ok (byt_or ++ newline); Ok (bn_fmt ++ newline); Ok (byt_nr ++ newline)].

(** ** Running computations *)

Lemma feed_cons (W : World) (s s' : wstate W) b c evs r rs :
  feed W s ((b, c) :: evs) = (r :: rs, s') ->
  exists s1, handle W s b c = (r, s1) /\ feed W s1 evs = (rs, s').
Proof.
  cbn [feed]. destruct (handle W s b c) as [r0 s1].
  destruct (feed W s1 evs) as [rs0 s2] eqn:E. intros H.
  injection H as H1 H2 H3. subst. exists s1. split; [reflexivity | exact E].
Qed.

(** Replaying the world's answers is running in the world. *)
Lemma run_replay {R : Type} (W : World) (p : action R) :
  forall (s s' : wstate W) replies evs r,
    replay p replies = Some (evs, r) ->
    feed W s evs = (replies, s') ->
    run W p s = (evs, r, s').
Proof.
  induction p as [r0 | b c k IH]; intros s s' replies evs r Hrep Hfeed.
  - destruct replies; cbn in Hrep; [| discriminate].
    injection Hrep as <- <-. cbn in Hfeed. injection Hfeed as <-. reflexivity.
  - destruct replies as [| x xs]; cbn in Hrep; [discriminate |].
    destruct (replay (k x) xs) as [[tr r1] |] eqn:E; [| discriminate].
    injection Hrep as <- <-.
    apply feed_cons in Hfeed. destruct Hfeed as (s1 & Hh & Hf).
    cbn [run]. rewrite Hh. rewrite (IH x s1 s' xs tr r1 E Hf). reflexivity.
Qed.

Lemma run_bind {S A B : Type} (W : World) (p : action (S * result A))
    (f : A -> method S B) :
  forall s : wstate W,
    run W (action_bind p f) s =
    match run W p s with
    | (tr1, (self1, Ok a), s1) =>
        let '(tr2, out, s2) := run W (f a self1) s1 in ((tr1 ++ tr2)%list, out, s2)
    | (tr1, (self1, Raised e), s1) => (tr1, (self1, Raised e), s1)
    end.
Proof.
  induction p as [[self1 [a | e]] | b c k IH]; intros s; cbn [action_bind run].
  - destruct (run W (f a self1) s) as [[tr2 out] s2]. reflexivity.
  - reflexivity.
  - destruct (handle W s b c) as [reply s1]. rewrite IH.
    destruct (run W (k reply) s1) as [[tr1 [self1 [a | e]]] s2]; [| reflexivity].
    destruct (run W (f a self1) s2) as [[tr2 out] s3]. reflexivity.
Qed.

Lemma run_zoom {S T A : Type} (W : World) (put : S -> T -> S) (self : S)
    (p : action (T * result A)) :
  forall s : wstate W,
    run W (zoom_action put self p) s =
    let '(tr, (sub, r), s1) := run W p s in (tr, (put self sub, r), s1).
Proof.
  induction p as [[sub r] | b c k IH]; intros s; cbn [zoom_action run].
  - reflexivity.
  - destruct (handle W s b c) as [reply s1]. rewrite IH.
    destruct (run W (k reply) s1) as [[tr [sub r]] s2]. reflexivity.
Qed.

(** ** The waveform preamble *)

Lemma getitem_run (W : World) (s s1 : wstate W) (w : TDS3000._Wfmpre.t)
    (key : string) (r : result string) :
  handle W s (fst (wfmp_query w key)) (snd (wfmp_query w key)) = (r, s1) ->
  run W (TDS3000._Wfmpre.__getitem__ key w) s
  = ([wfmp_query w key], (w, result_map PyStr.rstrip r), s1).
Proof.
  intros H. unfold TDS3000._Wfmpre.__getitem__, bind, bus_call.
  cbn [action_bind run]. cbn [wfmp_query fst snd] in H. rewrite H.
  destruct r; reflexivity.
Qed.

(** C7: every access to the preamble mapping at a key sends the one query
    [WFMP:<key>?] and returns the reply without its trailing whitespace (or
    raises what the bus raises); the mapping object is left as it was, with
    nothing stored; a second access sends the query again and returns the
    second reply. *)
Theorem wfmpre_getitem_live (W : World) (s s1 s2 : wstate W)
    (w : TDS3000._Wfmpre.t) (key : string) (r1 : string) (r2 : result string) :
  handle W s (fst (wfmp_query w key)) (snd (wfmp_query w key)) = (Ok r1, s1) ->
  handle W s1 (fst (wfmp_query w key)) (snd (wfmp_query w key)) = (r2, s2) ->
  run W (TDS3000._Wfmpre.__getitem__ key w) s
  = ([wfmp_query w key], (w, Ok (PyStr.rstrip r1)), s1)
  /\ run W (getitem_twice key w) s
     = ([wfmp_query w key; wfmp_query w key],
        (w, result_map (fun y => (PyStr.rstrip r1, PyStr.rstrip y)) r2), s2).
Proof.
  intros H1 H2. split.
  - apply (getitem_run W s s1 w key (Ok r1) H1).
  - unfold getitem_twice, bind. rewrite run_bind.
    rewrite (getitem_run W s s1 w key (Ok r1) H1). cbn [result_map].
    rewrite run_bind. rewrite (getitem_run W s1 s2 w key r2 H2).
    destruct r2; reflexivity.
Qed.

(** In a world whose answers change, the second access sees the change. *)
Lemma wfmpre_getitem_live_witness :
  let w := TDS3000._Wfmpre.__init__ (BusObject 1) in
  handle Counter.world 0 (fst (wfmp_query w "BYT_NR")) (snd (wfmp_query w "BYT_NR"))
    = (Ok ("0" ++ newline), 1)
  /\ handle Counter.world 1 (fst (wfmp_query w "BYT_NR")) (snd (wfmp_query w "BYT_NR"))
    = (Ok ("1" ++ newline), 2)
  /\ run Counter.world (TDS3000._Wfmpre.__getitem__ "BYT_NR" w) 0
     = ([(BusObject 1, Ask "WFMP:BYT_NR?")], (w, Ok "0"), 1)
  /\ run Counter.world (getitem_twice "BYT_NR" w) 0
     = ([(BusObject 1, Ask "WFMP:BYT_NR?"); (BusObject 1, Ask "WFMP:BYT_NR?")],
        (w, Ok ("0", "1")), 2).
Proof.
  cbv zeta. split; [reflexivity |]. split; [reflexivity |].
  apply (wfmpre_getitem_live Counter.world 0 1 2
           (TDS3000._Wfmpre.__init__ (BusObject 1)) "BYT_NR"
           ("0" ++ newline) (Ok ("1" ++ newline))); reflexivity.
Defined.

(** ** Time per division: reading *)

(** C8: when the bus answers the query [HOR:MAI:SCA?] with a string that
    reads as a float, [get_timediv] sends exactly that query and returns the
    float; for the answer [1.0000E-3] followed by a newline the float is
    0.001. *)
Theorem get_timediv_parses (W : World) (s s1 : wstate W) (self : TDS3000.t)
    (reply : string) (x : PyFloat.float) :
  handle W s (TDS3000.bus self) (Ask "HOR:MAI:SCA?") = (Ok reply, s1) ->
  PyFloat.of_string (PyStr.rstrip reply) = Some x ->
  run W (TDS3000.get_timediv self) s
  = ([(TDS3000.bus self, Ask "HOR:MAI:SCA?")], (self, Ok x), s1)
  /\ (reply = "1.0000E-3" ++ newline ->
      x = PyFloat.lit 1 (-3) /\ x = S754_finite false 4611686018427388 (-62)).
Proof.
  intros H Hx. split.
  - unfold TDS3000.get_timediv, bind, bus_call, lift. cbn [action_bind run].
    rewrite H. cbn [action_bind run]. rewrite Hx. reflexivity.
  - intros ->. vm_compute in Hx. injection Hx as <-. split; reflexivity.
Qed.

Lemma get_timediv_parses_witness :
  handle SimScope.world (bench true "") (TDS3000.bus scope) (Ask "HOR:MAI:SCA?")
    = (Ok ("1.0000E-3" ++ newline), bench true "")
  /\ PyFloat.of_string (PyStr.rstrip ("1.0000E-3" ++ newline))
     = Some (PyFloat.lit 1 (-3))
  /\ run SimScope.world (TDS3000.get_timediv scope) (bench true "")
     = ([(BusObject 1, Ask "HOR:MAI:SCA?")], (scope, Ok (PyFloat.lit 1 (-3))),
        bench true "").
Proof.
  split; [reflexivity |]. split; [vm_compute; reflexivity |].
  apply (get_timediv_parses SimScope.world (bench true "") (bench true "") scope
           ("1.0000E-3" ++ newline) (PyFloat.lit 1 (-3))).
  - reflexivity.
  - vm_compute; reflexivity.
Defined.

(** ** Fetching a waveform *)

(** C5: when the first read after [CURV?] gives one byte that is not [#],
    [get_curve] raises an [InstrumentError] whose message ends with that
    byte, having made no call after that read: no header read, no preamble
    query. *)
Theorem get_curve_unknown_first_byte (W : World) (s s' : wstate W)
    (self : TDS3000.t) (r0 r1 c : string) :
  feed W s (map (pair (TDS3000.bus self)) [Readall; Write "CURV?"; Read None])
    = ([Ok r0; Ok r1; Ok c], s') ->
  String.length c = 1%nat ->
  c <> "#" ->
  run W (TDS3000.get_curve self) s
  = (map (pair (TDS3000.bus self)) [Readall; Write "CURV?"; Read None],
     (self, Raised (InstrumentError ("Unknown first byte: " ++ c))), s').
Proof.
  intros Hfeed Hlen Hc.
  apply (run_replay W _ s s' _ _ _) with (2 := Hfeed).
  unfold TDS3000.get_curve, bind, bus_call, raise.
  cbn [replay action_bind map].
  destruct (String.eqb_spec c "#") as [E | _]; [contradiction |].
  unfold PyStr.len. rewrite Hlen. cbn [Z.of_nat Pos.of_succ_nat Z.eqb Pos.eqb].
  cbn [action_bind replay]. reflexivity.
Qed.

Lemma get_curve_unknown_first_byte_witness :
  feed SimScope.world (bench true "X")
       (map (pair (TDS3000.bus scope)) [Readall; Write "CURV?"; Read None])
    = ([Ok "stale"; Ok ""; Ok "X"], bench_after true "X" "" ["CURV?"])
  /\ String.length "X" = 1%nat
  /\ "X" <> "#"
  /\ run SimScope.world (TDS3000.get_curve scope) (bench true "X")
     = ([(BusObject 1, Readall); (BusObject 1, Write "CURV?");
         (BusObject 1, Read None)],
        (scope, Raised (InstrumentError "Unknown first byte: X")),
        bench_after true "X" "" ["CURV?"]).
Proof.
  split; [reflexivity |]. split; [reflexivity |]. split; [discriminate |].
  apply (get_curve_unknown_first_byte SimScope.world (bench true "X")
           (bench_after true "X" "" ["CURV?"]) scope "stale" "" "X").
  - reflexivity.
  - reflexivity.
  - discriminate.
Defined.

Lemma fromstring_not_instrument_error (data fmt msg : string) :
  Numpy.fromstring data fmt <> Raised (InstrumentError msg).
Proof.
  unfold Numpy.fromstring. destruct (Numpy.parse_dtype fmt); [| discriminate].
  destruct (Nat.eqb _ 0); discriminate.
Qed.

(** C9: when the first read after [CURV?] gives a string whose length is
    not one, [get_curve] reads nothing more of the reply and raises no
    unknown-first-byte error: after the three preamble queries, what it
    returns or raises is what [numpy.fromstring] gives on that whole string,
    block header and final newline included. *)
Theorem get_curve_whole_reply (W : World) (s s' : wstate W) (self : TDS3000.t)
    (r0 r1 c rb rf rw : string) :
  feed W s (map (pair (TDS3000.bus self)) [Readall; Write "CURV?"; Read None]
            ++ preamble_queries self)%list
    = ([Ok r0; Ok r1; Ok c; Ok rb; Ok rf; Ok rw], s') ->
  String.length c <> 1%nat ->
  run W (TDS3000.get_curve self) s
  = ((map (pair (TDS3000.bus self)) [Readall; Write "CURV?"; Read None]
      ++ preamble_queries self)%list,
     (self,
      Numpy.fromstring c
        (curve_format (PyStr.rstrip rb) (PyStr.rstrip rf) (PyStr.rstrip rw))),
     s')
  /\ forall msg,
       Numpy.fromstring c
         (curve_format (PyStr.rstrip rb) (PyStr.rstrip rf) (PyStr.rstrip rw))
       <> Raised (InstrumentError msg).
Proof.
  intros Hfeed Hlen. split; [| intros msg; apply fromstring_not_instrument_error].
  apply (run_replay W _ s s' _ _ _) with (2 := Hfeed).
  destruct self as [b w].
  unfold TDS3000.get_curve, TDS3000.wfmpre_item, TDS3000._Wfmpre.__getitem__,
    zoom, bind, bus_call, raise, ret, lift, preamble_queries, curve_format.
  cbn [replay action_bind zoom_action map app TDS3000.bus TDS3000.wfmpre
       TDS3000.set_wfmpre].
  destruct (String.eqb_spec c "#") as [E | _].
  { subst c. cbn in Hlen. contradiction. }
  destruct (Z.eqb_spec (PyStr.len c) 1) as [E | _].
  { unfold PyStr.len in E. apply (Nat2Z.inj _ 1%nat) in E. contradiction. }
  cbn [replay action_bind zoom_action]. reflexivity.
Qed.

(** Over a bus that hands the whole reply to the first read, the block
    header and the newline are decoded as samples. *)
Lemma get_curve_whole_reply_witness :
  feed SimScope.world (bench false sample_block)
       (map (pair (TDS3000.bus scope)) [Readall; Write "CURV?"; Read None]
        ++ preamble_queries scope)%list
    = ([Ok "stale"; Ok ""; Ok sample_block;
        Ok ("MSB" ++ newline); Ok ("RI" ++ newline); Ok ("2" ++ newline)],
       bench_after false sample_block "" ["CURV?"])
  /\ String.length sample_block <> 1%nat
  /\ run SimScope.world (TDS3000.get_curve scope) (bench false sample_block)
     = ((map (pair (BusObject 1)) [Readall; Write "CURV?"; Read None]
         ++ map (pair (BusObject 1))
              [Ask "WFMP:BYT_OR?"; Ask "WFMP:BN_FMT?"; Ask "WFMP:BYT_NR?"])%list,
        (scope,
         Ok (Numpy.mk_ndarray (Numpy.mk_dtype true true 2)
               [9009; 13313; 767; -502])),
        bench_after false sample_block "" ["CURV?"]).
Proof.
  split; [reflexivity |]. split; [discriminate |].
  apply (get_curve_whole_reply SimScope.world (bench false sample_block)
           (bench_after false sample_block "" ["CURV?"]) scope
           "stale" "" sample_block
           ("MSB" ++ newline) ("RI" ++ newline) ("2" ++ newline)).
  - reflexivity.
  - discriminate.
Defined.

(** ** Decoding samples *)

Lemma byte_val_byte (v : Z) :
  0 <= v < 256 -> Numpy.byte_val (byte v) = v.
Proof.
  intros H. unfold Numpy.byte_val, byte.
  rewrite N_ascii_embedding by lia. lia.
Qed.

Lemma byte_val_range (c : ascii) : 0 <= Numpy.byte_val c < 256.
Proof.
  unfold Numpy.byte_val. pose proof (N_ascii_bounded c). lia.
Qed.

Lemma byte_val_inj (a b : ascii) : Numpy.byte_val a = Numpy.byte_val b -> a = b.
Proof.
  unfold Numpy.byte_val. intros H. apply N2Z.inj in H.
  rewrite <- (ascii_N_embedding a), <- (ascii_N_embedding b), H. reflexivity.
Qed.

(** The big-endian signed reading of the two bytes of a 16-bit integer is
    that integer. *)
Lemma decode_be_int16 (v : Z) :
  -32768 <= v < 32768 ->
  Numpy.decode_elem (Numpy.mk_dtype true true 2)
    (list_ascii_of_string (be_int16 v)) = v.
Proof.
  intros H. unfold be_int16, Numpy.decode_elem, Numpy.unsigned_be, Numpy.to_signed.
  cbn [list_ascii_of_string Numpy.big_endian Numpy.signed Numpy.itemsize fold_left].
  assert (Hu : 0 <= v mod 65536 < 65536) by (apply Z.mod_pos_bound; lia).
  rewrite !byte_val_byte.
  2: { apply Z.mod_pos_bound; lia. }
  2: { split; [apply Z.div_pos; lia | apply Z.div_lt_upper_bound; lia]. }
  replace (256 * (256 * 0 + v mod 65536 / 256) + v mod 65536 mod 256)
    with (v mod 65536)
    by (rewrite (Z.div_mod (v mod 65536) 256) at 1; lia).
  change (2 ^ (8 * Z.of_nat 2 - 1)) with 32768.
  change (2 ^ (8 * Z.of_nat 2)) with 65536.
  destruct (Z.leb_spec 32768 (v mod 65536)) as [Hs | Hs];
    Z.div_mod_to_equations; lia.
Qed.

Lemma fromstring_be_int16 (v1 v2 : Z) :
  -32768 <= v1 < 32768 -> -32768 <= v2 < 32768 ->
  Numpy.fromstring (be_int16 v1 ++ be_int16 v2) ">i2"
  = Ok (Numpy.mk_ndarray (Numpy.mk_dtype true true 2) [v1; v2]).
Proof.
  intros H1 H2.
  pose proof (decode_be_int16 v1 H1) as D1.
  pose proof (decode_be_int16 v2 H2) as D2.
  unfold be_int16 in *. cbn [list_ascii_of_string] in D1, D2.
  unfold Numpy.fromstring.
  change (Numpy.parse_dtype ">i2") with (Some (Numpy.mk_dtype true true 2)).
  cbn [append list_ascii_of_string List.length Numpy.itemsize Nat.modulo
       Nat.divmod Nat.eqb fst snd Nat.sub].
  unfold Numpy.decode.
  cbn [List.length Numpy.itemsize Nat.div Nat.divmod fst Numpy.chunks firstn
       skipn map].
  rewrite D1, D2. reflexivity.
Qed.

(** On a bus whose [read()] returns all that is pending, the same block
    and the same preamble answers do not give the two integers 258 and -2:
    no header read is made and the whole reply, header and newline
    included, is decoded as four samples. *)
Lemma get_curve_block_read_at_once :
  sample_block = ("#" ++ "1" ++ "4" ++ be_int16 258 ++ be_int16 (-2) ++ newline)%string
  /\ fst (feed SimScope.world (bench false sample_block)
            (direct_reads scope ++ preamble_queries scope)%list)
     = [Ok "stale"; Ok ""; Ok sample_block;
        Ok ("MSB" ++ newline); Ok ("RI" ++ newline); Ok ("2" ++ newline)]
  /\ calls (run SimScope.world (TDS3000.get_curve scope)
              (bench false sample_block))
     = (direct_reads scope ++ preamble_queries scope)%list
  /\ outcome (run SimScope.world (TDS3000.get_curve scope)
                (bench false sample_block))
     = Ok (Numpy.mk_ndarray (Numpy.mk_dtype true true 2)
             [9009; 13313; 767; -502])
  /\ outcome (run SimScope.world (TDS3000.get_curve scope)
                (bench false sample_block))
     <> Ok (Numpy.mk_ndarray (Numpy.mk_dtype true true 2) [258; -2]).
Proof.
  split; [reflexivity |]. split; [reflexivity |]. split; [reflexivity |].
  split; [reflexivity |]. intros H. vm_compute in H. discriminate H.
Qed.

(** C1 (amended): when the preamble answers are [MSB], [RI] and [2] and the
    bus delivers the reply to [CURV?] piece by piece, [read()] returning the
    single byte [#] and the following reads [1], then [4], then the four
    bytes of two big-endian signed 16-bit integers, then a newline,
    [get_curve] returns exactly those two integers in that order; the reads
    it made are, in order, the first byte, the digit count, the length
    field, the payload and the newline, followed by the three preamble
    queries. *)
Theorem get_curve_decodes_block (W : World) (s s' : wstate W)
    (self : TDS3000.t) (v1 v2 : Z) (r0 r1 rb rf rw : string) :
  -32768 <= v1 < 32768 ->
  -32768 <= v2 < 32768 ->
  feed W s (block_reads self 1 4 ++ preamble_queries self)%list
    = ([Ok r0; Ok r1; Ok "#"; Ok "1"; Ok "4";
        Ok (be_int16 v1 ++ be_int16 v2); Ok newline; Ok rb; Ok rf; Ok rw], s') ->
  PyStr.rstrip rb = "MSB" ->
  PyStr.rstrip rf = "RI" ->
  PyStr.rstrip rw = "2" ->
  run W (TDS3000.get_curve self) s
  = ((block_reads self 1 4 ++ preamble_queries self)%list,
     (self, Ok (Numpy.mk_ndarray (Numpy.mk_dtype true true 2) [v1; v2])),
     s').
Proof.
  intros H1 H2 Hfeed Hb Hf Hw.
  apply (run_replay W _ s s' _ _ _) with (2 := Hfeed).
  destruct self as [b w].
  unfold TDS3000.get_curve, TDS3000.wfmpre_item, TDS3000._Wfmpre.__getitem__,
    TDS3000.int, zoom, bind, bus_call, raise, ret, lift, preamble_queries,
    block_reads.
  cbn [replay action_bind zoom_action map app TDS3000.bus TDS3000.wfmpre
       TDS3000.set_wfmpre].
  rewrite String.eqb_refl.
  cbn [replay action_bind zoom_action].
  change (PyStr.int "1") with (Some 1).
  cbn [of_option replay action_bind zoom_action].
  change (PyStr.int "4") with (Some 4).
  cbn [of_option replay action_bind zoom_action].
  rewrite Hb, Hf, Hw.
  change ((if ("MSB" =? "MSB")%string then ">" else "<")
          ++ (if ("RI" =? "RI")%string then "i" else "u"))%string
    with ">i".
  change ((">i" ++ "2")%string) with ">i2".
  rewrite (fromstring_be_int16 v1 v2 H1 H2). reflexivity.
Qed.

Lemma get_curve_decodes_block_witness :
  -32768 <= 258 < 32768
  /\ -32768 <= -2 < 32768
  /\ feed SimScope.world (bench true sample_block)
          (block_reads scope 1 4 ++ preamble_queries scope)%list
     = ([Ok "stale"; Ok ""; Ok "#"; Ok "1"; Ok "4";
         Ok (be_int16 258 ++ be_int16 (-2)); Ok newline;
         Ok ("MSB" ++ newline); Ok ("RI" ++ newline); Ok ("2" ++ newline)],
        bench_after true sample_block "" ["CURV?"])
  /\ run SimScope.world (TDS3000.get_curve scope) (bench true sample_block)
     = ((block_reads scope 1 4 ++ preamble_queries scope)%list,
        (scope, Ok (Numpy.mk_ndarray (Numpy.mk_dtype true true 2) [258; -2])),
        bench_after true sample_block "" ["CURV?"]).
Proof.
  split; [lia |]. split; [lia |]. split; [reflexivity |].
  apply (get_curve_decodes_block SimScope.world (bench true sample_block)
           (bench_after true sample_block "" ["CURV?"]) scope 258 (-2)
           "stale" "" ("MSB" ++ newline) ("RI" ++ newline) ("2" ++ newline));
    try lia; reflexivity.
Defined.

(** The type string built from the preamble reads as: big-endian exactly
    for [MSB], signed exactly for [RI], element size from [BYT_NR]. *)
Lemma curve_format_dtype (byt_or bn_fmt byt_nr : string) :
  Numpy.parse_dtype (curve_format byt_or bn_fmt byt_nr)
  = option_map
      (Numpy.mk_dtype (String.eqb byt_or "MSB") (String.eqb bn_fmt "RI"))
      (Numpy.width_of (String.eqb bn_fmt "RI") byt_nr).
Proof.
  unfold curve_format.
  destruct (String.eqb byt_or "MSB"), (String.eqb bn_fmt "RI"); reflexivity.
Qed.

Lemma list_ascii_of_string_app (s1 s2 : string) :
  list_ascii_of_string (s1 ++ s2)
  = (list_ascii_of_string s1 ++ list_ascii_of_string s2)%list.
Proof.
  induction s1 as [| c s1 IH]; cbn; [reflexivity | rewrite IH; reflexivity].
Qed.

Lemma list_ascii_of_string_length (s : string) :
  List.length (list_ascii_of_string s) = String.length s.
Proof.
  induction s as [| c s IH]; cbn; [reflexivity | rewrite IH; reflexivity].
Qed.

Lemma chunks_length (w count : nat) (bytes : list ascii) :
  List.length (Numpy.chunks w count bytes) = count.
Proof.
  revert bytes. induction count as [| n IH]; intros bytes; cbn;
    [reflexivity | rewrite IH; reflexivity].
Qed.

Lemma chunks_app (w i n : nat) :
  forall front rest : list ascii,
    List.length front = (i * w)%nat ->
    Numpy.chunks w (i + n) (front ++ rest)
    = (Numpy.chunks w i front ++ Numpy.chunks w n rest)%list.
Proof.
  induction i as [| i IH]; intros front rest Hlen.
  - destruct front; [reflexivity | discriminate].
  - cbn [Nat.add Numpy.chunks app].
    assert (Hw : (w <= List.length front)%nat) by (rewrite Hlen; cbn; lia).
    rewrite firstn_app, skipn_app.
    replace (w - List.length front)%nat with 0%nat by lia.
    cbn [firstn skipn]. rewrite app_nil_r.
    rewrite IH; [reflexivity |].
    rewrite length_skipn, Hlen. cbn. lia.
Qed.

Lemma unsigned_be_snoc (l : list ascii) (c : ascii) :
  Numpy.unsigned_be (l ++ [c]) = 256 * Numpy.unsigned_be l + Numpy.byte_val c.
Proof. unfold Numpy.unsigned_be. rewrite fold_left_app. reflexivity. Qed.

Lemma unsigned_be_range (l : list ascii) :
  0 <= Numpy.unsigned_be l < 256 ^ Z.of_nat (List.length l).
Proof.
  induction l as [| c l IH] using rev_ind.
  - cbn. lia.
  - rewrite unsigned_be_snoc, length_app. cbn [List.length].
    replace (Z.of_nat (List.length l + 1)) with (Z.of_nat (List.length l) + 1) by lia.
    rewrite Z.pow_add_r by lia. change (256 ^ 1) with 256.
    pose proof (byte_val_range c). lia.
Qed.

(** Lists of bytes of the same length with the same value are the same. *)
Lemma unsigned_be_inj (l1 : list ascii) :
  forall l2, List.length l1 = List.length l2 ->
    Numpy.unsigned_be l1 = Numpy.unsigned_be l2 -> l1 = l2.
Proof.
  induction l1 as [| c1 l1 IH] using rev_ind; intros l2 Hlen Hv.
  - destruct l2; [reflexivity | discriminate].
  - destruct l2 as [| c2 l2 _] using rev_ind.
    + rewrite length_app in Hlen. cbn in Hlen. lia.
    + rewrite !length_app in Hlen. cbn [List.length] in Hlen.
      rewrite !unsigned_be_snoc in Hv.
      pose proof (byte_val_range c1). pose proof (byte_val_range c2).
      assert (Hu : Numpy.unsigned_be l1 = Numpy.unsigned_be l2) by lia.
      assert (Hc : Numpy.byte_val c1 = Numpy.byte_val c2) by lia.
      rewrite (IH l2) by (lia || exact Hu).
      rewrite (byte_val_inj c1 c2 Hc). reflexivity.
Qed.

Lemma to_signed_inj (w : nat) (x y : Z) :
  (0 < w)%nat ->
  0 <= x < 256 ^ Z.of_nat w -> 0 <= y < 256 ^ Z.of_nat w ->
  Numpy.to_signed w x = Numpy.to_signed w y -> x = y.
Proof.
  intros Hw. unfold Numpy.to_signed.
  replace (8 * Z.of_nat w) with ((8 * Z.of_nat w - 1) + 1) at 2 4 by lia.
  rewrite (Z.pow_add_r 2 (8 * Z.of_nat w - 1) 1) by lia.
  change (2 ^ 1) with 2.
  replace (256 ^ Z.of_nat w) with (2 ^ (8 * Z.of_nat w - 1) * 2).
  2: { change 256 with (2 ^ 8). rewrite <- Z.pow_mul_r by lia.
       replace (8 * Z.of_nat w) with ((8 * Z.of_nat w - 1) + 1) at 2 by lia.
       rewrite Z.pow_add_r by lia. reflexivity. }
  set (h := 2 ^ (8 * Z.of_nat w - 1)).
  intros Hx Hy.
  destruct (Z.leb_spec h x), (Z.leb_spec h y); lia.
Qed.

(** An element whose bytes do not read the same in both directions has
    different values in the two byte orders, signed or not. *)
Lemma decode_elem_order (sg : bool) (w : nat) (sample : list ascii) :
  (0 < w)%nat ->
  List.length sample = w ->
  sample <> List.rev sample ->
  Numpy.decode_elem (Numpy.mk_dtype true sg w) sample
  <> Numpy.decode_elem (Numpy.mk_dtype false sg w) sample.
Proof.
  intros Hw Hlen Hne. unfold Numpy.decode_elem.
  cbn [Numpy.big_endian Numpy.signed Numpy.itemsize].
  pose proof (unsigned_be_range sample) as R1.
  pose proof (unsigned_be_range (List.rev sample)) as R2.
  rewrite length_rev in R2. rewrite Hlen in R1, R2.
  assert (Hu : Numpy.unsigned_be sample <> Numpy.unsigned_be (List.rev sample)).
  { intros E. apply Hne. apply unsigned_be_inj; [| exact E].
    rewrite length_rev. reflexivity. }
  destruct sg; [| exact Hu].
  intros E. apply Hu. apply (to_signed_inj w); assumption.
Qed.

Lemma width_of_pos (sg : bool) (byt_nr : string) (w : nat) :
  Numpy.width_of sg byt_nr = Some w -> (0 < w)%nat.
Proof.
  unfold Numpy.width_of. destruct (String.eqb byt_nr "").
  - destruct sg; intros H; inversion H; lia.
  - destruct (Numpy.c_integer byt_nr) as [z |]; [| discriminate].
    repeat match goal with
           | |- context [match ?x with _ => _ end] => destruct x
           end;
      intros H; try discriminate H; inversion H; lia.
Qed.

(** A block whose sample number [i] does not read the same in both
    directions decodes to different values at [i] under [MSB] and under any
    other byte order, whatever the sample size named by [BYT_NR]. *)
Lemma byte_order_matters (byt_or bn_fmt byt_nr front sample back : string)
    (w i j : nat) :
  byt_or <> "MSB" ->
  Numpy.width_of (String.eqb bn_fmt "RI") byt_nr = Some w ->
  String.length front = (i * w)%nat ->
  String.length sample = w ->
  String.length back = (j * w)%nat ->
  list_ascii_of_string sample <> List.rev (list_ascii_of_string sample) ->
  exists A B x y,
    Numpy.fromstring (front ++ sample ++ back)
      (curve_format "MSB" bn_fmt byt_nr) = Ok A
    /\ Numpy.fromstring (front ++ sample ++ back)
         (curve_format byt_or bn_fmt byt_nr) = Ok B
    /\ nth_error (Numpy.elems A) i = Some x
    /\ nth_error (Numpy.elems B) i = Some y
    /\ x <> y.
Proof.
  intros Hor Hwidth Hf Hs Hb Hne.
  pose proof (width_of_pos _ _ _ Hwidth) as Hw.
  set (sg := String.eqb bn_fmt "RI") in *.
  set (smp := list_ascii_of_string sample) in *.
  set (bytes := list_ascii_of_string (front ++ sample ++ back)).
  assert (Hsl : List.length smp = w)
    by (unfold smp; rewrite list_ascii_of_string_length; exact Hs).
  assert (Hbytes : bytes
            = (list_ascii_of_string front
               ++ (smp ++ list_ascii_of_string back))%list).
  { unfold bytes, smp. rewrite !list_ascii_of_string_app. reflexivity. }
  assert (Hlen : List.length bytes = ((i + (1 + j)) * w)%nat).
  { rewrite Hbytes, !length_app, Hsl, !list_ascii_of_string_length, Hf, Hb. lia. }
  assert (Hchunks : Numpy.chunks w (i + (1 + j)) bytes
            = (Numpy.chunks w i (list_ascii_of_string front)
               ++ smp :: Numpy.chunks w j (list_ascii_of_string back))%list).
  { rewrite Hbytes.
    rewrite chunks_app by (rewrite list_ascii_of_string_length; exact Hf).
    rewrite (chunks_app w 1 j smp) by (rewrite Hsl; lia).
    assert (Hfirst : firstn w smp = smp) by (rewrite <- Hsl; apply firstn_all).
    cbn [Numpy.chunks app]. rewrite Hfirst. reflexivity. }
  assert (Hdec : forall be : bool,
            Numpy.fromstring (front ++ sample ++ back)
              (curve_format (if be then "MSB" else byt_or) bn_fmt byt_nr)
            = Ok (Numpy.mk_ndarray (Numpy.mk_dtype be sg w)
                    (map (Numpy.decode_elem (Numpy.mk_dtype be sg w))
                       (Numpy.chunks w (i + (1 + j)) bytes)))).
  { intros be. unfold Numpy.fromstring. rewrite curve_format_dtype.
    fold sg. fold bytes. rewrite Hwidth.
    replace (String.eqb (if be then "MSB" else byt_or) "MSB") with be.
    2: { destruct be; [reflexivity |].
         symmetry. apply String.eqb_neq. exact Hor. }
    cbn [option_map Numpy.itemsize]. unfold Numpy.decode.
    cbn [Numpy.itemsize]. rewrite Hlen.
    rewrite Nat.Div0.mod_mul, Nat.div_mul by lia. reflexivity. }
  assert (Hnth : forall dt : Numpy.dtype,
            nth_error (map (Numpy.decode_elem dt)
                         (Numpy.chunks w (i + (1 + j)) bytes)) i
            = Some (Numpy.decode_elem dt smp)).
  { intros dt. rewrite Hchunks, map_app. cbn [map].
    rewrite nth_error_app2 by (rewrite length_map, chunks_length; lia).
    rewrite length_map, chunks_length, Nat.sub_diag. reflexivity. }
  eexists. eexists. eexists. eexists.
  split; [exact (Hdec true) |]. split; [exact (Hdec false) |].
  cbn [Numpy.elems].
  split; [apply Hnth |]. split; [apply Hnth |].
  apply decode_elem_order; assumption.
Qed.

(** Two bytes read the same in both directions only when they are equal. *)
Lemma pair_not_palindrome (a b : ascii) :
  a <> b ->
  list_ascii_of_string (String a (String b EmptyString))
  <> List.rev (list_ascii_of_string (String a (String b EmptyString))).
Proof.
  intros Hab E. cbn in E. injection E as E1 E2. apply Hab. exact E1.
Qed.

(** Where the byte order makes no difference: with one byte per sample;
    for a pair of different bytes that lies across two samples; for a pair
    of different bytes inside a sample of four bytes that reads the same in
    both directions. *)
Lemma byte_order_blind_blocks :
  let b1 := String "001" EmptyString in
  let b2 := String "002" EmptyString in
  result_map Numpy.elems
    (Numpy.fromstring (b1 ++ b2) (curve_format "MSB" "RI" "1")) = Ok [1; 2]
  /\ result_map Numpy.elems
       (Numpy.fromstring (b1 ++ b2) (curve_format "LSB" "RI" "1")) = Ok [1; 2]
  /\ result_map Numpy.elems
       (Numpy.fromstring (b1 ++ b1 ++ b2 ++ b2) (curve_format "MSB" "RI" "2"))
     = Ok [257; 514]
  /\ result_map Numpy.elems
       (Numpy.fromstring (b1 ++ b1 ++ b2 ++ b2) (curve_format "LSB" "RI" "2"))
     = Ok [257; 514]
  /\ result_map Numpy.elems
       (Numpy.fromstring (b1 ++ b2 ++ b2 ++ b1) (curve_format "MSB" "RI" "4"))
     = Ok [16908801]
  /\ result_map Numpy.elems
       (Numpy.fromstring (b1 ++ b2 ++ b2 ++ b1) (curve_format "LSB" "RI" "4"))
     = Ok [16908801].
Proof. cbv zeta. repeat split; reflexivity. Qed.

(** C6 (amended): [get_curve] decodes the payload with the type string
    built from the three preamble answers it has just queried: big-endian
    exactly when [BYT_OR] is [MSB], signed exactly when [BN_FMT] is [RI],
    and the element size that [BYT_NR] names, read as an integer (1, 2, 4 or
    8); so, in a block of whole samples, a sample that does not read the
    same in both directions (with two bytes per sample: a pair of different
    bytes) decodes to a different value at that sample under [MSB] and
    under any other [BYT_OR]. *)
Theorem get_curve_format_from_preamble (W : World) (s s' : wstate W)
    (self : TDS3000.t) (meta_len data_len : Z)
    (r0 r1 d l payload nl rb rf rw : string) :
  PyStr.int d = Some meta_len ->
  PyStr.int l = Some data_len ->
  feed W s (block_reads self meta_len data_len ++ preamble_queries self)%list
    = ([Ok r0; Ok r1; Ok "#"; Ok d; Ok l; Ok payload; Ok nl;
        Ok rb; Ok rf; Ok rw], s') ->
  run W (TDS3000.get_curve self) s
  = ((block_reads self meta_len data_len ++ preamble_queries self)%list,
     (self,
      Numpy.fromstring payload
        (curve_format (PyStr.rstrip rb) (PyStr.rstrip rf) (PyStr.rstrip rw))),
     s')
  /\ Numpy.parse_dtype
       (curve_format (PyStr.rstrip rb) (PyStr.rstrip rf) (PyStr.rstrip rw))
     = option_map
         (Numpy.mk_dtype (String.eqb (PyStr.rstrip rb) "MSB")
                         (String.eqb (PyStr.rstrip rf) "RI"))
         (Numpy.width_of (String.eqb (PyStr.rstrip rf) "RI") (PyStr.rstrip rw))
  /\ (forall sg, map (Numpy.width_of sg)
                     ["1"; "2"; "4"; "8"; "02"; " 2"; "+2"; "3"; "0"]
                 = [Some 1%nat; Some 2%nat; Some 4%nat; Some 8%nat;
                    Some 2%nat; Some 2%nat; Some 2%nat; None; None])
  /\ (forall (byt_or bn_fmt byt_nr front sample back : string) (w i j : nat),
        byt_or <> "MSB" ->
        Numpy.width_of (String.eqb bn_fmt "RI") byt_nr = Some w ->
        String.length front = (i * w)%nat ->
        String.length sample = w ->
        String.length back = (j * w)%nat ->
        list_ascii_of_string sample <> List.rev (list_ascii_of_string sample) ->
        exists A B x y,
          Numpy.fromstring (front ++ sample ++ back)
            (curve_format "MSB" bn_fmt byt_nr) = Ok A
          /\ Numpy.fromstring (front ++ sample ++ back)
               (curve_format byt_or bn_fmt byt_nr) = Ok B
          /\ nth_error (Numpy.elems A) i = Some x
          /\ nth_error (Numpy.elems B) i = Some y
          /\ x <> y)
  /\ (forall a b : ascii,
        a <> b ->
        list_ascii_of_string (String a (String b EmptyString))
        <> List.rev (list_ascii_of_string (String a (String b EmptyString)))).
Proof.
  intros Hd Hl Hfeed.
  split; [| split; [apply curve_format_dtype | split; [| split]]].
  - apply (run_replay W _ s s' _ _ _) with (2 := Hfeed).
    destruct self as [b w].
    unfold TDS3000.get_curve, TDS3000.wfmpre_item, TDS3000._Wfmpre.__getitem__,
      TDS3000.int, zoom, bind, bus_call, raise, ret, lift, preamble_queries,
      block_reads, curve_format.
    cbn [replay action_bind zoom_action map app TDS3000.bus TDS3000.wfmpre
         TDS3000.set_wfmpre].
    rewrite String.eqb_refl.
    cbn [replay action_bind zoom_action]. rewrite Hd.
    cbn [of_option replay action_bind zoom_action]. rewrite Hl.
    cbn [of_option replay action_bind zoom_action]. reflexivity.
  - intros sg. destruct sg; reflexivity.
  - intros byt_or bn_fmt byt_nr front sample back w i j Ho Hw Hf Hs Hb Hne.
    exact (byte_order_matters byt_or bn_fmt byt_nr front sample back w i j
             Ho Hw Hf Hs Hb Hne).
  - exact pair_not_palindrome.
Qed.

Lemma get_curve_format_from_preamble_witness :
  PyStr.int "1" = Some 1
  /\ PyStr.int "4" = Some 4
  /\ feed SimScope.world (bench true sample_block)
          (block_reads scope 1 4 ++ preamble_queries scope)%list
     = ([Ok "stale"; Ok ""; Ok "#"; Ok "1"; Ok "4";
         Ok (be_int16 258 ++ be_int16 (-2)); Ok newline;
         Ok ("MSB" ++ newline); Ok ("RI" ++ newline); Ok ("2" ++ newline)],
        bench_after true sample_block "" ["CURV?"])
  /\ run SimScope.world (TDS3000.get_curve scope) (bench true sample_block)
     = ((block_reads scope 1 4 ++ preamble_queries scope)%list,
        (scope,
         Numpy.fromstring (be_int16 258 ++ be_int16 (-2))
           (curve_format "MSB" "RI" "2")),
        bench_after true sample_block "" ["CURV?"])
  /\ Numpy.fromstring (be_int16 258 ++ be_int16 (-2)) (curve_format "MSB" "RI" "2")
     = Ok (Numpy.mk_ndarray (Numpy.mk_dtype true true 2) [258; -2])
  /\ Numpy.fromstring (be_int16 258 ++ be_int16 (-2)) (curve_format "LSB" "RI" "2")
     = Ok (Numpy.mk_ndarray (Numpy.mk_dtype false true 2) [513; -257])
  /\ Numpy.fromstring (be_int16 258 ++ be_int16 (-2)) (curve_format "LSB" "RP" "2")
     = Ok (Numpy.mk_ndarray (Numpy.mk_dtype false false 2) [513; 65279]).
Proof.
  split; [reflexivity |]. split; [reflexivity |]. split; [reflexivity |].
  split; [| split; [reflexivity | split; reflexivity]].
  apply (get_curve_format_from_preamble SimScope.world (bench true sample_block)
           (bench_after true sample_block "" ["CURV?"]) scope 1 4
           "stale" "" "1" "4" (be_int16 258 ++ be_int16 (-2)) newline
           ("MSB" ++ newline) ("RI" ++ newline) ("2" ++ newline));
    reflexivity.
Defined.

(** ** Time per division: setting *)

Lemma timediv_message_eq :
  ("Timediv not in " ++ Py.str_tuple TDS3000._acceptable_timedivs)%string
  = timediv_message.
Proof. vm_compute. reflexivity. Qed.

Lemma set_timediv_accepts (W : World) (s s1 : wstate W) (self : TDS3000.t)
    (v : PyFloat.float) (reply : result string) :
  Py.contains TDS3000._acceptable_timedivs (Util.sciround v 1) = true ->
  handle W s (TDS3000.bus self) (Write (timediv_command (Util.sciround v 1)))
    = (reply, s1) ->
  run W (TDS3000.set_timediv v self) s
  = ([(TDS3000.bus self, Write (timediv_command (Util.sciround v 1)))],
     (self, result_map (fun _ => tt) reply), s1).
Proof.
  intros Hin Hw. unfold TDS3000.set_timediv. rewrite Hin.
  unfold bind, bus_call, ret. cbn [action_bind run].
  unfold timediv_command in Hw. rewrite Hw. destruct reply; reflexivity.
Qed.

Lemma set_timediv_rejects (W : World) (s : wstate W) (self : TDS3000.t)
    (v : PyFloat.float) :
  Py.contains TDS3000._acceptable_timedivs (Util.sciround v 1) = false ->
  run W (TDS3000.set_timediv v self) s
  = ([], (self, Raised (InstrumentError timediv_message)), s).
Proof.
  intros Hin. unfold TDS3000.set_timediv. rewrite Hin.
  rewrite timediv_message_eq. reflexivity.
Qed.

Lemma float_same_eq (x y : PyFloat.float) : float_same x y = true -> x = y.
Proof.
  unfold float_same. destruct (float_eq_dec x y); [trivial | discriminate].
Qed.

Lemma accepted_values_stable :
  forallb stable_timediv TDS3000._acceptable_timedivs = true.
Proof. vm_compute. reflexivity. Qed.

(** C2: the accepted set has 31 values; for each of them [set_timediv]
    makes exactly one bus call, the write of [HOR:MAI:SCA] followed by the
    value in the [%.0E] format, and returns without raising. *)
Theorem set_timediv_accepted_value (W : World) (s s1 : wstate W)
    (self : TDS3000.t) (v : Py.number) (reply : string) :
  In v TDS3000._acceptable_timedivs ->
  handle W s (TDS3000.bus self)
         (Write ("HOR:MAI:SCA " ++ PyFloat.format_0E (Py.to_float v)))
    = (Ok reply, s1) ->
  run W (TDS3000.set_timediv (Py.to_float v) self) s
  = ([(TDS3000.bus self,
       Write ("HOR:MAI:SCA " ++ PyFloat.format_0E (Py.to_float v)))],
     (self, Ok tt), s1)
  /\ List.length TDS3000._acceptable_timedivs = 31%nat
  /\ map (fun v => PyFloat.format_0E (Py.to_float v))
         TDS3000._acceptable_timedivs
     = ["1E+01"; "4E+00"; "2E+00"; "1E+00"; "4E-01"; "2E-01"; "1E-01";
        "4E-02"; "2E-02"; "1E-02"; "4E-03"; "2E-03"; "1E-03";
        "4E-04"; "2E-04"; "1E-04"; "4E-05"; "2E-05"; "1E-05";
        "4E-06"; "2E-06"; "1E-06"; "4E-07"; "2E-07"; "1E-07";
        "4E-08"; "2E-08"; "1E-08"; "4E-09"; "2E-09"; "1E-09"].
Proof.
  intros Hin Hw.
  split; [| split; [reflexivity | vm_compute; reflexivity]].
  pose proof (proj1 (forallb_forall _ _) accepted_values_stable v Hin) as Hv.
  unfold stable_timediv in Hv. apply andb_prop in Hv. destruct Hv as [Hr Hc].
  apply float_same_eq in Hr.
  pose proof (set_timediv_accepts W s s1 self (Py.to_float v) (Ok reply)) as H.
  rewrite Hr in H. apply H; assumption.
Qed.

Lemma set_timediv_accepted_value_witness :
  In (Py.PyFloat (PyFloat.lit 4 (-9))) TDS3000._acceptable_timedivs
  /\ handle SimScope.world (bench true "") (TDS3000.bus scope)
            (Write ("HOR:MAI:SCA "
                    ++ PyFloat.format_0E (Py.to_float (Py.PyFloat (PyFloat.lit 4 (-9))))))
     = (Ok "", bench_after true "" "stale" ["HOR:MAI:SCA 4E-09"])
  /\ run SimScope.world
         (TDS3000.set_timediv (Py.to_float (Py.PyFloat (PyFloat.lit 4 (-9)))) scope)
         (bench true "")
     = ([(BusObject 1, Write "HOR:MAI:SCA 4E-09")], (scope, Ok tt),
        bench_after true "" "stale" ["HOR:MAI:SCA 4E-09"]).
Proof.
  assert (Hin : In (Py.PyFloat (PyFloat.lit 4 (-9))) TDS3000._acceptable_timedivs).
  { unfold TDS3000._acceptable_timedivs. do 28 right. left. reflexivity. }
  split; [exact Hin |]. split; [vm_compute; reflexivity |].
  apply (set_timediv_accepted_value SimScope.world (bench true "")
           (bench_after true "" "stale" ["HOR:MAI:SCA 4E-09"]) scope
           (Py.PyFloat (PyFloat.lit 4 (-9))) "" Hin).
  vm_compute. reflexivity.
Defined.

(** The value 0.15 rounds to 0.1, which is accepted: [set_timediv] writes
    the command and raises nothing. *)
Lemma set_timediv_0_15_is_accepted :
  Util.sciround (PyFloat.lit 15 (-2)) 1 = PyFloat.lit 1 (-1)
  /\ Py.contains TDS3000._acceptable_timedivs
       (Util.sciround (PyFloat.lit 15 (-2)) 1) = true
  /\ run SimScope.world (TDS3000.set_timediv (PyFloat.lit 15 (-2)) scope)
         (bench true "")
     = ([(BusObject 1, Write "HOR:MAI:SCA 1E-01")], (scope, Ok tt),
        bench_after true "" "stale" ["HOR:MAI:SCA 1E-01"])
  /\ ~ (exists msg,
          outcome (run SimScope.world
                     (TDS3000.set_timediv (PyFloat.lit 15 (-2)) scope)
                     (bench true ""))
          = Raised (InstrumentError msg)).
Proof.
  split; [vm_compute; reflexivity |]. split; [vm_compute; reflexivity |].
  split; [vm_compute; reflexivity |].
  intros [msg H]. vm_compute in H. discriminate H.
Qed.

(** C3 (amended): for every value whose rounding to one significant digit
    is not in the accepted set, as for 3 and 7, [set_timediv] raises an
    [InstrumentError] whose message lists the whole accepted set, and makes
    no bus call at all; the world is left as it was. *)
Theorem set_timediv_rejected_value (W : World) (s : wstate W)
    (self : TDS3000.t) (v : PyFloat.float) :
  Py.contains TDS3000._acceptable_timedivs (Util.sciround v 1) = false ->
  run W (TDS3000.set_timediv v self) s
  = ([], (self, Raised (InstrumentError timediv_message)), s)
  /\ timediv_message
     = ("Timediv not in " ++ Py.str_tuple TDS3000._acceptable_timedivs)%string
  /\ Py.contains TDS3000._acceptable_timedivs
       (Util.sciround (PyFloat.lit 3 0) 1) = false
  /\ Py.contains TDS3000._acceptable_timedivs
       (Util.sciround (PyFloat.lit 7 0) 1) = false.
Proof.
  intros Hin. split; [apply set_timediv_rejects; exact Hin |].
  split; [symmetry; apply timediv_message_eq |].
  split; vm_compute; reflexivity.
Qed.

Lemma set_timediv_rejected_value_witness :
  Py.contains TDS3000._acceptable_timedivs
    (Util.sciround (PyFloat.lit 3 0) 1) = false
  /\ run SimScope.world (TDS3000.set_timediv (PyFloat.lit 3 0) scope)
         (bench true "")
     = ([], (scope, Raised (InstrumentError timediv_message)), bench true "").
Proof.
  split; [vm_compute; reflexivity |].
  apply (set_timediv_rejected_value SimScope.world (bench true "") scope
           (PyFloat.lit 3 0)).
  vm_compute. reflexivity.
Defined.

(** *** Rounding to one significant digit *)

Lemma pow10_pos (k : Z) : 0 <= k -> 0 < 10 ^ k.
Proof. intros H. apply Z.pow_pos_nonneg; lia. Qed.

Lemma pow10_succ (k : Z) : 0 <= k -> 10 ^ (k + 1) = 10 * 10 ^ k.
Proof. intros H. rewrite Z.pow_add_r by lia. lia. Qed.

Lemma count_digits_spec (fuel : nat) :
  forall n, 0 < n < 10 ^ (Z.of_nat fuel + 1) ->
    1 <= PyFloat.count_digits fuel n
    /\ 10 ^ (PyFloat.count_digits fuel n - 1) <= n
       < 10 ^ (PyFloat.count_digits fuel n).
Proof.
  induction fuel as [| f IH]; intros n Hn.
  - cbn [PyFloat.count_digits]. cbn in Hn. cbn. lia.
  - cbn [PyFloat.count_digits]. destruct (Z.ltb_spec n 10) as [Hs | Hs].
    + cbn. lia.
    + assert (Hq : 0 < n / 10 < 10 ^ (Z.of_nat f + 1)).
      { split; [apply Z.div_str_pos; lia |].
        apply Z.div_lt_upper_bound; [lia |].
        rewrite <- pow10_succ by lia.
        replace (Z.of_nat f + 1 + 1) with (Z.of_nat (S f) + 1) by lia.
        apply Hn. }
      destruct (IH (n / 10) Hq) as (Hc & Hlo & Hhi).
      set (c := PyFloat.count_digits f (n / 10)) in *.
      split; [lia |].
      replace (1 + c - 1) with ((c - 1) + 1) by lia.
      replace (1 + c) with (c + 1) by lia.
      rewrite !pow10_succ by lia.
      pose proof (Z.div_mod n 10 ltac:(lia)) as Hdm.
      pose proof (Z.mod_pos_bound n 10 ltac:(lia)) as Hr.
      lia.
Qed.

Lemma digits10_spec (p : positive) :
  1 <= PyFloat.digits10 p
  /\ 10 ^ (PyFloat.digits10 p - 1) <= Zpos p < 10 ^ (PyFloat.digits10 p).
Proof.
  unfold PyFloat.digits10. apply count_digits_spec. split; [lia |].
  pose proof (Pos.size_gt p) as H.
  apply Pos2Z.pos_lt_pos in H. rewrite Pos2Z.inj_pow in H.
  rewrite positive_nat_Z.
  assert (Hle : 2 ^ Z.pos (Pos.size p) <= 10 ^ Z.pos (Pos.size p))
    by (apply Z.pow_le_mono_l; lia).
  rewrite pow10_succ by lia. lia.
Qed.

Lemma sci_exp_mantissa (n d : positive) :
  snd (PyFloat.scale10 n d (PyFloat.sci_exp n d))
  <= fst (PyFloat.scale10 n d (PyFloat.sci_exp n d))
  < 10 * snd (PyFloat.scale10 n d (PyFloat.sci_exp n d)).
Proof.
  destruct (digits10_spec n) as (Hn1 & Hnlo & Hnhi).
  destruct (digits10_spec d) as (Hd1 & Hdlo & Hdhi).
  unfold PyFloat.sci_exp.
  set (dn := PyFloat.digits10 n) in *. set (dd := PyFloat.digits10 d) in *.
  destruct (Z.leb_spec 0 (dn - dd)) as [He | He].
  - destruct (Z.leb_spec (Z.pos d * 10 ^ (dn - dd)) (Z.pos n)) as [Hc | Hc].
    + unfold PyFloat.scale10. destruct (Z.leb_spec 0 (dn - dd)); [| lia].
      cbn [fst snd]. split; [exact Hc |].
      replace dn with ((dd - 1) + (dn - dd) + 1) in Hnhi by lia.
      rewrite pow10_succ, Z.pow_add_r in Hnhi by lia.
      pose proof (pow10_pos (dn - dd) ltac:(lia)). nia.
    + unfold PyFloat.scale10.
      destruct (Z.leb_spec 0 (dn - dd - 1)) as [Hk | Hk]; cbn [fst snd].
      * replace (dn - dd) with ((dn - dd - 1) + 1) in Hc by lia.
        rewrite pow10_succ in Hc by lia.
        replace (dn - 1) with (dd + (dn - dd - 1)) in Hnlo by lia.
        rewrite Z.pow_add_r in Hnlo by lia.
        pose proof (pow10_pos (dn - dd - 1) ltac:(lia)). nia.
      * assert (E : dn = dd) by lia. rewrite E in *.
        replace (dd - dd) with 0 in Hc by lia.
        replace (- (dd - dd - 1)) with 1 by lia.
        replace dd with ((dd - 1) + 1) in Hdhi by lia.
        rewrite pow10_succ in Hdhi by lia.
        change (10 ^ 1) with 10. change (10 ^ 0) with 1 in Hc. lia.
  - destruct (Z.leb_spec (Z.pos d) (Z.pos n * 10 ^ (- (dn - dd)))) as [Hc | Hc].
    + unfold PyFloat.scale10. destruct (Z.leb_spec 0 (dn - dd)); [lia |].
      cbn [fst snd]. split; [exact Hc |].
      replace dd with ((dd - 1) + 1) in Hdlo by lia.
      replace (dd - 1 + 1 - 1) with (dn + (- (dn - dd)) - 1) in Hdlo by lia.
      replace (dn + - (dn - dd) - 1) with ((dn - 1) + (- (dn - dd))) in Hdlo by lia.
      rewrite Z.pow_add_r in Hdlo by lia.
      replace dn with ((dn - 1) + 1) in Hnhi by lia.
      rewrite pow10_succ in Hnhi by lia.
      pose proof (pow10_pos (- (dn - dd)) ltac:(lia)).
      pose proof (pow10_pos (dn - 1) ltac:(lia)). nia.
    + unfold PyFloat.scale10. destruct (Z.leb_spec 0 (dn - dd - 1)); [lia |].
      cbn [fst snd].
      replace (- (dn - dd - 1)) with (- (dn - dd) + 1) by lia.
      rewrite pow10_succ by lia.
      replace dd with ((dn - 1) + (- (dn - dd) + 1)) in Hdhi by lia.
      rewrite Z.pow_add_r, pow10_succ in Hdhi by lia.
      pose proof (pow10_pos (- (dn - dd)) ltac:(lia)).
      pose proof (pow10_pos (dn - 1) ltac:(lia)). nia.
Qed.

(** The mantissa times the power of ten is the number. *)
Lemma scale10_value (n d : positive) (k : Z) :
  fst (PyFloat.scale10 n d k) * Zpos d * 10 ^ (Z.max k 0)
  = Zpos n * snd (PyFloat.scale10 n d k) * 10 ^ (Z.max (- k) 0).
Proof.
  unfold PyFloat.scale10. destruct (Z.leb_spec 0 k); cbn [fst snd].
  - rewrite Z.max_l, Z.max_r by lia. change (10 ^ 0) with 1. lia.
  - rewrite Z.max_r, Z.max_l by lia. change (10 ^ 0) with 1. lia.
Qed.

(** [sciround(x, 1)] on a finite float: the magnitude [n / d] of [x] is
    written [(a / b) * 10^k] with [1 <= a / b < 10]; the digit kept is the integer
    nearest to [a / b], the upper one when [a / b] lies half way; the result
    is the float nearest to that digit times [10^k], with the sign of [x]. *)
Lemma sciround_half_away (sgn : bool) (m : positive) (e : Z) :
  let '(a, b, k) := sci_notation m e in
  let '(n, d) := PyFloat.magnitude m e in
  0 < b
  /\ a * Zpos d * 10 ^ (Z.max k 0) = Zpos n * b * 10 ^ (Z.max (- k) 0)
  /\ b <= a < 10 * b
  /\ exists r,
       nearest_half_away a b r
       /\ 1 <= r <= 10
       /\ Util.sciround (S754_finite sgn m e) 1 = PyFloat.of_decimal sgn r k.
Proof.
  unfold sci_notation, Util.sciround.
  destruct (PyFloat.magnitude m e) as [n d].
  replace (PyFloat.sci_exp n d - (1 - 1)) with (PyFloat.sci_exp n d) by lia.
  pose proof (sci_exp_mantissa n d) as Hm.
  pose proof (scale10_value n d (PyFloat.sci_exp n d)) as Hval.
  set (k := PyFloat.sci_exp n d) in *.
  assert (Hb : 0 < snd (PyFloat.scale10 n d k)).
  { unfold PyFloat.scale10. destruct (Z.leb_spec 0 k); cbn [snd]; [| lia].
    apply Z.mul_pos_pos; [lia | apply pow10_pos; lia]. }
  destruct (PyFloat.scale10 n d k) as [a b]. cbn [fst snd] in *.
  split; [exact Hb |]. split; [exact Hval |]. split; [exact Hm |].
  exists (PyFloat.round_half_away a b).
  assert (Hr : nearest_half_away a b (PyFloat.round_half_away a b)).
  { unfold nearest_half_away, PyFloat.round_half_away.
    pose proof (Z.div_mod (2 * a + b) (2 * b) ltac:(lia)) as Hdm.
    pose proof (Z.mod_pos_bound (2 * a + b) (2 * b) ltac:(lia)) as Hmod.
    set (q := (2 * a + b) / (2 * b)) in *. lia. }
  split; [exact Hr |]. split; [| reflexivity].
  unfold nearest_half_away in Hr.
  set (r := PyFloat.round_half_away a b) in *. nia.
Qed.

(** C4: [set_timediv] rounds to one significant digit, halves away from
    zero, and validates and writes the rounded value: what it does depends
    on its argument only through the rounding; the rounding writes the
    number as a mantissa in [1, 10) times a power of ten and keeps the
    integer nearest to the mantissa, the upper one at a half, with the sign;
    0.00198 rounds to 2e-3 and the command for 2e-3 is written; 9.6 rounds
    to 10 and the command for 10 is written; 2.5, half way between 2 and 3,
    rounds to 3. *)
Theorem set_timediv_rounds_first (W : World) (s s1 s2 : wstate W)
    (self : TDS3000.t) (r1 r2 : string) :
  handle W s (TDS3000.bus self) (Write "HOR:MAI:SCA 2E-03") = (Ok r1, s1) ->
  handle W s (TDS3000.bus self) (Write "HOR:MAI:SCA 1E+01") = (Ok r2, s2) ->
  (forall v v',
     Util.sciround v 1 = Util.sciround v' 1 ->
     run W (TDS3000.set_timediv v self) s = run W (TDS3000.set_timediv v' self) s)
  /\ (forall sgn m e,
        let '(a, b, k) := sci_notation m e in
        let '(n, d) := PyFloat.magnitude m e in
        0 < b
        /\ a * Zpos d * 10 ^ (Z.max k 0) = Zpos n * b * 10 ^ (Z.max (- k) 0)
        /\ b <= a < 10 * b
        /\ exists r,
             nearest_half_away a b r
             /\ 1 <= r <= 10
             /\ Util.sciround (S754_finite sgn m e) 1
                = PyFloat.of_decimal sgn r k)
  /\ Util.sciround (PyFloat.lit 198 (-5)) 1 = PyFloat.lit 2 (-3)
  /\ run W (TDS3000.set_timediv (PyFloat.lit 198 (-5)) self) s
     = ([(TDS3000.bus self, Write "HOR:MAI:SCA 2E-03")], (self, Ok tt), s1)
  /\ Util.sciround (PyFloat.lit 96 (-1)) 1 = PyFloat.of_Z 10
  /\ run W (TDS3000.set_timediv (PyFloat.lit 96 (-1)) self) s
     = ([(TDS3000.bus self, Write "HOR:MAI:SCA 1E+01")], (self, Ok tt), s2)
  /\ Util.sciround (PyFloat.lit 25 (-1)) 1 = PyFloat.of_Z 3.
Proof.
  intros H1 H2.
  split. { intros v v' E. unfold TDS3000.set_timediv. rewrite E. reflexivity. }
  split. { apply sciround_half_away. }
  split. { vm_compute. reflexivity. }
  split.
  { apply (set_timediv_accepts W s s1 self (PyFloat.lit 198 (-5)) (Ok r1)).
    - vm_compute. reflexivity.
    - exact H1. }
  split. { vm_compute. reflexivity. }
  split.
  { apply (set_timediv_accepts W s s2 self (PyFloat.lit 96 (-1)) (Ok r2)).
    - vm_compute. reflexivity.
    - exact H2. }
  vm_compute. reflexivity.
Qed.

Lemma set_timediv_rounds_first_witness :
  handle SimScope.world (bench true "") (TDS3000.bus scope)
         (Write "HOR:MAI:SCA 2E-03")
    = (Ok "", bench_after true "" "stale" ["HOR:MAI:SCA 2E-03"])
  /\ handle SimScope.world (bench true "") (TDS3000.bus scope)
            (Write "HOR:MAI:SCA 1E+01")
     = (Ok "", bench_after true "" "stale" ["HOR:MAI:SCA 1E+01"])
  /\ run SimScope.world (TDS3000.set_timediv (PyFloat.lit 198 (-5)) scope)
         (bench true "")
     = ([(BusObject 1, Write "HOR:MAI:SCA 2E-03")], (scope, Ok tt),
        bench_after true "" "stale" ["HOR:MAI:SCA 2E-03"])
  /\ run SimScope.world (TDS3000.set_timediv (PyFloat.lit 96 (-1)) scope)
         (bench true "")
     = ([(BusObject 1, Write "HOR:MAI:SCA 1E+01")], (scope, Ok tt),
        bench_after true "" "stale" ["HOR:MAI:SCA 1E+01"]).
Proof.
  split; [reflexivity |]. split; [reflexivity |].
  pose proof (set_timediv_rounds_first SimScope.world (bench true "")
                (bench_after true "" "stale" ["HOR:MAI:SCA 2E-03"])
                (bench_after true "" "stale" ["HOR:MAI:SCA 1E+01"])
                scope "" "" eq_refl eq_refl) as H.
  split; [apply H | apply H].
Defined.

(** ** The driver's own state *)

Lemma preserves_ret {S A : Type} (a : A) : preserves (@ret S A a).
Proof. intros W s self. reflexivity. Qed.

Lemma preserves_raise {S A : Type} (e : exn) : preserves (@raise S A e).
Proof. intros W s self. reflexivity. Qed.

Lemma preserves_lift {S A : Type} (r : result A) : preserves (@lift S A r).
Proof. intros W s self. reflexivity. Qed.

Lemma preserves_bus_call {S : Type} (field : S -> bus_ref) (c : call) :
  preserves (bus_call field c).
Proof.
  intros W s self. unfold bus_call. cbn [run].
  destruct (handle W s (field self) c) as [reply s1]. reflexivity.
Qed.

Lemma preserves_bind {S A B : Type} (m : method S A) (f : A -> method S B) :
  preserves m -> (forall a, preserves (f a)) -> preserves (bind m f).
Proof.
  intros Hm Hf W s self. unfold bind. rewrite run_bind.
  specialize (Hm W s self).
  destruct (run W (m self) s) as [[tr1 [self1 [a | e]]] s1];
    cbn in Hm; subst self1.
  - specialize (Hf a W s1 self).
    destruct (run W (f a self) s1) as [[tr2 out] s2]. exact Hf.
  - reflexivity.
Qed.

Lemma preserves_zoom {S T A : Type} (get : S -> T) (put : S -> T -> S)
    (m : method T A) :
  (forall self, put self (get self) = self) ->
  preserves m -> preserves (zoom get put m).
Proof.
  intros Hput Hm W s self. unfold zoom. rewrite run_zoom.
  specialize (Hm W s (get self)).
  destruct (run W (m (get self)) s) as [[tr [sub r]] s1].
  cbn in Hm. subst sub. cbn. apply Hput.
Qed.

Lemma set_wfmpre_same (self : TDS3000.t) :
  TDS3000.set_wfmpre self (TDS3000.wfmpre self) = self.
Proof. destruct self; reflexivity. Qed.

Ltac preserved :=
  repeat first
    [ apply preserves_ret | apply preserves_raise | apply preserves_lift
    | apply preserves_bus_call | apply preserves_bind
    | apply preserves_zoom; [exact set_wfmpre_same |]
    | match goal with
      | |- forall _, _ => intro
      | |- preserves (if ?b then _ else _) => destruct b
      end ].

Lemma getitem_preserves (key : string) :
  preserves (TDS3000._Wfmpre.__getitem__ key).
Proof. unfold TDS3000._Wfmpre.__getitem__. preserved. Qed.

Lemma wfmpre_item_preserves (key : string) :
  preserves (TDS3000.wfmpre_item key).
Proof.
  unfold TDS3000.wfmpre_item. apply preserves_zoom;
    [exact set_wfmpre_same | apply getitem_preserves].
Qed.

Lemma get_curve_preserves : preserves TDS3000.get_curve.
Proof.
  unfold TDS3000.get_curve, TDS3000.int.
  repeat first
    [ apply wfmpre_item_preserves | progress preserved ].
Qed.

Lemma get_timediv_preserves : preserves TDS3000.get_timediv.
Proof. unfold TDS3000.get_timediv. preserved. Qed.

Lemma set_timediv_preserves (to : PyFloat.float) :
  preserves (TDS3000.set_timediv to).
Proof.
  unfold TDS3000.set_timediv.
  destruct (Py.contains _ _); preserved.
Qed.

(** C10: whatever the world answers, and whether the call returns or
    raises, [get_curve], [get_timediv], [set_timediv] and the preamble
    access leave the driver object as it was: the same bus reference and the
    same preamble view, itself with the same bus reference and entries. *)
Theorem driver_state_unchanged (W : World) (s : wstate W) (self : TDS3000.t)
    (to : PyFloat.float) (key : string) :
  self_after (run W (TDS3000.get_curve self) s) = self
  /\ self_after (run W (TDS3000.get_timediv self) s) = self
  /\ self_after (run W (TDS3000.set_timediv to self) s) = self
  /\ self_after (run W (TDS3000.wfmpre_item key self) s) = self
  /\ self_after (run W (TDS3000._Wfmpre.__getitem__ key (TDS3000.wfmpre self)) s)
     = TDS3000.wfmpre self.
Proof.
  split; [apply get_curve_preserves |].
  split; [apply get_timediv_preserves |].
  split; [apply set_timediv_preserves |].
  split; [apply wfmpre_item_preserves | apply getitem_preserves].
Qed.

(** * Further properties of the driver *)

(** ** Every path through a method *)

(** What holds along every path holds of every run. *)
Lemma along_run {S A : Type} (W : World) (p : action (S * result A)) :
  forall (P : list (event * result string) -> S * result A -> Prop)
         (s : wstate W),
    along P p -> P (history W s (run W p s)) (snd (fst (run W p s))).
Proof.
  induction p as [r | b c k IH]; intros P s H.
  - exact H.
  - cbn [along] in H. unfold history, calls. cbn [run].
    destruct (handle W s b c) as [reply s1] eqn:Hh.
    specialize (IH reply (fun h r => P ((b, c, reply) :: h) r) s1 (H reply)).
    unfold history, calls in IH.
    destruct (run W (k reply) s1) as [[tr r] s2]. cbn [fst snd feed] in *.
    rewrite Hh. destruct (feed W s1 tr) as [replies s3]. cbn [fst combine] in *.
    exact IH.
Qed.

Lemma history_calls {S A : Type} (W : World) (p : action (S * result A))
    (s : wstate W) :
  map fst (history W s (run W p s)) = calls (run W p s).
Proof.
  unfold history, calls. revert s.
  induction p as [r | b c k IH]; intros s; cbn [run].
  - reflexivity.
  - destruct (handle W s b c) as [reply s1] eqn:Hh.
    specialize (IH reply s1).
    destruct (run W (k reply) s1) as [[tr r] s2]. cbn [fst snd feed] in *.
    rewrite Hh. destruct (feed W s1 tr) as [replies s3].
    cbn [fst combine map] in *. rewrite IH. reflexivity.
Qed.

Ltac unfold_driver :=
  unfold set_then_get, TDS3000.get_curve, TDS3000.get_timediv,
    TDS3000.set_timediv, TDS3000.wfmpre_item, TDS3000._Wfmpre.__getitem__,
    TDS3000.int, zoom, bind, bus_call, raise, ret, lift.

Ltac walk_cbn :=
  cbn [along action_bind zoom_action of_option
       TDS3000.bus TDS3000.wfmpre TDS3000.set_wfmpre].

(** Follows every path: each reply either returns or raises, each test of
    the source goes either way. *)
Ltac walk :=
  repeat (walk_cbn;
          match goal with
          | |- forall _ : result string, _ =>
              let x := fresh "x" in let e := fresh "e" in intros [x | e]
          | |- context [String.eqb ?x "#"] => destruct (String.eqb x "#") eqn:?
          | |- context [Z.eqb (PyStr.len ?x) 1] =>
              destruct (Z.eqb (PyStr.len x) 1) eqn:?
          | |- context [Py.contains ?t ?x] => destruct (Py.contains t x) eqn:?
          | |- context [of_option _ ?o] => destruct o eqn:?
          end);
  walk_cbn.

(** X11: in every world, when a bus call raises during [get_curve],
    [get_timediv], [set_timediv] or a preamble access, no further call is
    made and the method raises that same exception. *)
Theorem bus_failure_propagates (W : World) (s : wstate W) (self : TDS3000.t)
    (to : PyFloat.float) (key : string) :
  stops_at_failure (history W s (run W (TDS3000.get_curve self) s))
                   (outcome (run W (TDS3000.get_curve self) s))
  /\ stops_at_failure (history W s (run W (TDS3000.get_timediv self) s))
                      (outcome (run W (TDS3000.get_timediv self) s))
  /\ stops_at_failure (history W s (run W (TDS3000.set_timediv to self) s))
                      (outcome (run W (TDS3000.set_timediv to self) s))
  /\ stops_at_failure (history W s (run W (TDS3000.wfmpre_item key self) s))
                      (outcome (run W (TDS3000.wfmpre_item key self) s)).
Proof.
  repeat split.
  - apply (along_run W (TDS3000.get_curve self)
             (fun h r => stops_at_failure h (snd r))).
    destruct self as [b w]. unfold_driver. walk.
    all: cbn [stops_at_failure snd]; auto.
  - apply (along_run W (TDS3000.get_timediv self)
             (fun h r => stops_at_failure h (snd r))).
    destruct self as [b w]. unfold_driver. walk.
    all: cbn [stops_at_failure snd]; auto.
  - apply (along_run W (TDS3000.set_timediv to self)
             (fun h r => stops_at_failure h (snd r))).
    destruct self as [b w]. unfold_driver. walk.
    all: cbn [stops_at_failure snd]; auto.
  - apply (along_run W (TDS3000.wfmpre_item key self)
             (fun h r => stops_at_failure h (snd r))).
    destruct self as [b w]. unfold_driver. walk.
    all: cbn [stops_at_failure snd]; auto.
Qed.

(** ** The constructor *)

Lemma calls_confined {S A : Type} (W : World) (s : wstate W)
    (p : action (S * result A)) (b : bus_ref) :
  along (fun h _ => Forall (fun ev => fst ev = b) (map fst h)) p ->
  Forall (fun ev => fst ev = b) (calls (run W p s)).
Proof.
  intros H. rewrite <- history_calls.
  exact (along_run W p (fun h _ => Forall (fun ev => fst ev = b) (map fst h))
           s H).
Qed.

(** X1: a driver built by the constructor holds the bus it was given, or
    the serial port [/dev/ttyS0] with hardware flow control and newline
    termination when it was given none; its preamble view holds the same
    bus and no entry; and every call of every operation goes to that bus. *)
Theorem constructed_driver_uses_its_bus (bus : option bus_ref) (W : World)
    (s : wstate W) (to : PyFloat.float) (key : string) :
  let self := TDS3000.__init__ bus in
  let b := match bus with Some given => given | None => default_bus end in
  TDS3000.bus self = b
  /\ TDS3000._Wfmpre.bus (TDS3000.wfmpre self) = b
  /\ TDS3000._Wfmpre.items (TDS3000.wfmpre self) = []
  /\ Forall (fun ev => fst ev = b) (calls (run W (TDS3000.get_curve self) s))
  /\ Forall (fun ev => fst ev = b) (calls (run W (TDS3000.get_timediv self) s))
  /\ Forall (fun ev => fst ev = b)
            (calls (run W (TDS3000.set_timediv to self) s))
  /\ Forall (fun ev => fst ev = b)
            (calls (run W (TDS3000.wfmpre_item key self) s)).
Proof.
  cbv zeta.
  assert (E : TDS3000.__init__ bus
              = TDS3000.mk
                  (match bus with Some given => given | None => default_bus end)
                  (TDS3000._Wfmpre.mk []
                     (match bus with Some given => given | None => default_bus end)))
    by (destruct bus; reflexivity).
  rewrite E. set (b := match bus with Some given => given | None => default_bus end).
  split; [reflexivity |]. split; [reflexivity |]. split; [reflexivity |].
  repeat split; apply calls_confined; unfold_driver; walk;
    cbn [map fst TDS3000._Wfmpre.bus]; repeat constructor.
Qed.

(** ** The order of the calls of [get_curve] *)

Ltac protocol_leaf :=
  cbn [map fst snd];
  first
    [ left; exists 0, 0;
      split; [eexists; reflexivity | intros arr E; try discriminate E; reflexivity]
    | left; eexists; exists 0;
      split; [eexists; reflexivity | intros arr E; try discriminate E; reflexivity]
    | left; eexists; eexists;
      split; [eexists; reflexivity | intros arr E; try discriminate E; reflexivity]
    | right;
      split; [eexists; reflexivity | intros arr E; try discriminate E; reflexivity] ].

(** X2: in every world [get_curve] follows one of two scripts, in order
    and from the start: pending input is discarded, [CURV?] is written, one
    read is made; then either the four header and payload reads of a block,
    or none; then the three preamble queries.  It stops early only by
    raising; when it returns a waveform the script was followed to the
    end. *)
Theorem get_curve_protocol (W : World) (s : wstate W) (self : TDS3000.t) :
  (exists meta_len data_len,
     prefix_of (calls (run W (TDS3000.get_curve self) s))
               (block_reads self meta_len data_len ++ preamble_queries self)
     /\ forall arr,
          outcome (run W (TDS3000.get_curve self) s) = Ok arr ->
          calls (run W (TDS3000.get_curve self) s)
          = (block_reads self meta_len data_len ++ preamble_queries self)%list)
  \/ (prefix_of (calls (run W (TDS3000.get_curve self) s))
                (direct_reads self ++ preamble_queries self)
      /\ forall arr,
           outcome (run W (TDS3000.get_curve self) s) = Ok arr ->
           calls (run W (TDS3000.get_curve self) s)
           = (direct_reads self ++ preamble_queries self)%list).
Proof.
  rewrite <- history_calls. unfold outcome.
  apply (along_run W (TDS3000.get_curve self)
           (fun h r =>
              (exists meta_len data_len,
                 prefix_of (map fst h)
                   (block_reads self meta_len data_len ++ preamble_queries self)
                 /\ forall arr, snd r = Ok arr ->
                      map fst h
                      = (block_reads self meta_len data_len
                         ++ preamble_queries self)%list)
              \/ (prefix_of (map fst h)
                    (direct_reads self ++ preamble_queries self)
                  /\ forall arr, snd r = Ok arr ->
                       map fst h
                       = (direct_reads self ++ preamble_queries self)%list))).
  destruct self as [b w]. unfold prefix_of. unfold_driver. walk.
  all: protocol_leaf.
Qed.

(** ** Malformed block headers *)

(** X3: when the byte after [#] does not read as an integer, [get_curve]
    raises [ValueError] right after reading it: the length field, the
    payload and the preamble are never asked for. *)
Theorem get_curve_bad_digit_count (W : World) (s s' : wstate W)
    (self : TDS3000.t) (r0 r1 d : string) :
  feed W s (map (pair (TDS3000.bus self))
              [Readall; Write "CURV?"; Read None; Read (Some 1)])
    = ([Ok r0; Ok r1; Ok "#"; Ok d], s') ->
  PyStr.int d = None ->
  run W (TDS3000.get_curve self) s
  = (map (pair (TDS3000.bus self))
       [Readall; Write "CURV?"; Read None; Read (Some 1)],
     (self, Raised ValueError), s').
Proof.
  intros Hfeed Hd.
  apply (run_replay W _ s s' _ _ _) with (2 := Hfeed).
  destruct self as [b w]. unfold_driver.
  cbn [replay action_bind map TDS3000.bus]. rewrite String.eqb_refl.
  cbn [replay action_bind]. rewrite Hd. reflexivity.
Qed.

Lemma get_curve_bad_digit_count_witness :
  feed SimScope.world (bench true "#x4abcd")
       (map (pair (TDS3000.bus scope))
          [Readall; Write "CURV?"; Read None; Read (Some 1)])
    = ([Ok "stale"; Ok ""; Ok "#"; Ok "x"],
       bench_after true "#x4abcd" "4abcd" ["CURV?"])
  /\ PyStr.int "x" = None
  /\ run SimScope.world (TDS3000.get_curve scope) (bench true "#x4abcd")
     = (map (pair (BusObject 1))
          [Readall; Write "CURV?"; Read None; Read (Some 1)],
        (scope, Raised ValueError),
        bench_after true "#x4abcd" "4abcd" ["CURV?"]).
Proof.
  split; [reflexivity |]. split; [reflexivity |].
  apply (get_curve_bad_digit_count SimScope.world (bench true "#x4abcd")
           (bench_after true "#x4abcd" "4abcd" ["CURV?"]) scope
           "stale" "" "x"); reflexivity.
Defined.

(** X4: when the length field does not read as an integer, [get_curve]
    raises [ValueError] right after reading it: no payload is read and the
    preamble is not queried.  A digit count of zero is such a case when the
    bus returns nothing for a read of zero bytes. *)
Theorem get_curve_bad_length_field (W : World) (s s' : wstate W)
    (self : TDS3000.t) (r0 r1 d l : string) (meta_len : Z) :
  PyStr.int d = Some meta_len ->
  feed W s (map (pair (TDS3000.bus self))
              [Readall; Write "CURV?"; Read None; Read (Some 1);
               Read (Some meta_len)])
    = ([Ok r0; Ok r1; Ok "#"; Ok d; Ok l], s') ->
  PyStr.int l = None ->
  run W (TDS3000.get_curve self) s
  = (map (pair (TDS3000.bus self))
       [Readall; Write "CURV?"; Read None; Read (Some 1); Read (Some meta_len)],
     (self, Raised ValueError), s').
Proof.
  intros Hd Hfeed Hl.
  apply (run_replay W _ s s' _ _ _) with (2 := Hfeed).
  destruct self as [b w]. unfold_driver.
  cbn [replay action_bind map TDS3000.bus]. rewrite String.eqb_refl.
  cbn [replay action_bind]. rewrite Hd.
  cbn [of_option replay action_bind]. rewrite Hl. reflexivity.
Qed.

Lemma get_curve_bad_length_field_witness :
  PyStr.int "0" = Some 0
  /\ feed SimScope.world (bench true "#0abcd")
          (map (pair (TDS3000.bus scope))
             [Readall; Write "CURV?"; Read None; Read (Some 1); Read (Some 0)])
     = ([Ok "stale"; Ok ""; Ok "#"; Ok "0"; Ok ""],
        bench_after true "#0abcd" "abcd" ["CURV?"])
  /\ PyStr.int "" = None
  /\ run SimScope.world (TDS3000.get_curve scope) (bench true "#0abcd")
     = (map (pair (BusObject 1))
          [Readall; Write "CURV?"; Read None; Read (Some 1); Read (Some 0)],
        (scope, Raised ValueError),
        bench_after true "#0abcd" "abcd" ["CURV?"]).
Proof.
  split; [reflexivity |]. split; [reflexivity |]. split; [reflexivity |].
  apply (get_curve_bad_length_field SimScope.world (bench true "#0abcd")
           (bench_after true "#0abcd" "abcd" ["CURV?"]) scope
           "stale" "" "0" "" 0); reflexivity.
Defined.

(** ** The shape of the waveform *)

Lemma get_curve_block_run (W : World) (s s' : wstate W) (self : TDS3000.t)
    (meta_len data_len : Z) (r0 r1 d l payload nl rb rf rw : string) :
  PyStr.int d = Some meta_len ->
  PyStr.int l = Some data_len ->
  feed W s (block_reads self meta_len data_len ++ preamble_queries self)%list
    = ([Ok r0; Ok r1; Ok "#"; Ok d; Ok l; Ok payload; Ok nl;
        Ok rb; Ok rf; Ok rw], s') ->
  run W (TDS3000.get_curve self) s
  = ((block_reads self meta_len data_len ++ preamble_queries self)%list,
     (self,
      Numpy.fromstring payload
        (curve_format (PyStr.rstrip rb) (PyStr.rstrip rf) (PyStr.rstrip rw))),
     s').
Proof.
  intros Hd Hl Hfeed.
  apply (run_replay W _ s s' _ _ _) with (2 := Hfeed).
  destruct self as [b w]. unfold_driver.
  unfold preamble_queries, block_reads, curve_format.
  cbn [replay action_bind zoom_action map app TDS3000.bus TDS3000.wfmpre
       TDS3000.set_wfmpre].
  rewrite String.eqb_refl.
  cbn [replay action_bind zoom_action]. rewrite Hd.
  cbn [of_option replay action_bind zoom_action]. rewrite Hl.
  cbn [of_option replay action_bind zoom_action]. reflexivity.
Qed.

Lemma get_curve_direct_run (W : World) (s s' : wstate W) (self : TDS3000.t)
    (r0 r1 c rb rf rw : string) :
  String.length c <> 1%nat ->
  feed W s (direct_reads self ++ preamble_queries self)%list
    = ([Ok r0; Ok r1; Ok c; Ok rb; Ok rf; Ok rw], s') ->
  run W (TDS3000.get_curve self) s
  = ((direct_reads self ++ preamble_queries self)%list,
     (self,
      Numpy.fromstring c
        (curve_format (PyStr.rstrip rb) (PyStr.rstrip rf) (PyStr.rstrip rw))),
     s').
Proof.
  intros Hlen Hfeed.
  apply (run_replay W _ s s' _ _ _) with (2 := Hfeed).
  destruct self as [b w]. unfold_driver.
  unfold preamble_queries, direct_reads, curve_format.
  cbn [replay action_bind zoom_action map app TDS3000.bus TDS3000.wfmpre
       TDS3000.set_wfmpre].
  destruct (String.eqb_spec c "#") as [E | _].
  { subst c. cbn in Hlen. contradiction. }
  destruct (Z.eqb_spec (PyStr.len c) 1) as [E | _].
  { unfold PyStr.len in E. apply (Nat2Z.inj _ 1%nat) in E. contradiction. }
  cbn [replay action_bind zoom_action]. reflexivity.
Qed.

Lemma parse_dtype_itemsize (fmt : string) (dt : Numpy.dtype) :
  Numpy.parse_dtype fmt = Some dt -> (0 < Numpy.itemsize dt)%nat.
Proof.
  unfold Numpy.parse_dtype. destruct fmt as [| o [| k w]]; try discriminate.
  destruct (Ascii.eqb o ">"), (Ascii.eqb o "<"), (Ascii.eqb k "i"),
    (Ascii.eqb k "u"); try discriminate;
    (destruct (Numpy.width_of _ w) as [n |] eqn:E; [| discriminate];
     intros H; injection H as <-; cbn [Numpy.itemsize];
     exact (width_of_pos _ _ _ E)).
Qed.

Lemma pow256 (w : nat) : 256 ^ Z.of_nat w = 2 ^ (8 * Z.of_nat w).
Proof. change 256 with (2 ^ 8). rewrite <- Z.pow_mul_r by lia. reflexivity. Qed.

Lemma pow2_half (w : nat) :
  (0 < w)%nat -> 2 ^ (8 * Z.of_nat w) = 2 * 2 ^ (8 * Z.of_nat w - 1).
Proof.
  intros Hw. replace (8 * Z.of_nat w) with ((8 * Z.of_nat w - 1) + 1) at 1 by lia.
  rewrite Z.pow_add_r by lia. change (2 ^ 1) with 2. lia.
Qed.

Lemma chunks_sizes (w : nat) :
  forall (count : nat) (bytes : list ascii),
    (count * w <= List.length bytes)%nat ->
    Forall (fun c => List.length c = w) (Numpy.chunks w count bytes).
Proof.
  induction count as [| n IH]; intros bytes Hlen; cbn [Numpy.chunks].
  - constructor.
  - cbn in Hlen. constructor.
    + rewrite length_firstn. lia.
    + apply IH. rewrite length_skipn. lia.
Qed.

(** An element read from [itemsize dt] bytes lies in the range of [dt]. *)
Lemma decode_elem_in_range (dt : Numpy.dtype) (bytes : list ascii) :
  (0 < Numpy.itemsize dt)%nat ->
  List.length bytes = Numpy.itemsize dt ->
  in_range dt (Numpy.decode_elem dt bytes).
Proof.
  intros Hw Hlen. unfold in_range, Numpy.decode_elem.
  set (l := if Numpy.big_endian dt then bytes else List.rev bytes).
  assert (Hl : List.length l = Numpy.itemsize dt).
  { unfold l. destruct (Numpy.big_endian dt); [exact Hlen |].
    rewrite length_rev. exact Hlen. }
  pose proof (unsigned_be_range l) as R. rewrite Hl, pow256 in R.
  destruct (Numpy.signed dt); [| exact R].
  unfold Numpy.to_signed. rewrite (pow2_half _ Hw) in *.
  destruct (Z.leb_spec (2 ^ (8 * Z.of_nat (Numpy.itemsize dt) - 1))
              (Numpy.unsigned_be l)); lia.
Qed.

(** [numpy.fromstring] on a valid type string: as many elements as the
    element size goes into the length of the data, each in range; an error
    when it does not go evenly. *)
Lemma fromstring_shape (data fmt : string) (dt : Numpy.dtype) :
  Numpy.parse_dtype fmt = Some dt ->
  (Nat.modulo (String.length data) (Numpy.itemsize dt) <> 0%nat ->
   Numpy.fromstring data fmt = Raised ValueError)
  /\ (Nat.modulo (String.length data) (Numpy.itemsize dt) = 0%nat ->
      exists samples,
        Numpy.fromstring data fmt = Ok (Numpy.mk_ndarray dt samples)
        /\ List.length samples
           = Nat.div (String.length data) (Numpy.itemsize dt)
        /\ Forall (in_range dt) samples).
Proof.
  intros Hfmt. pose proof (parse_dtype_itemsize fmt dt Hfmt) as Hw.
  unfold Numpy.fromstring. rewrite Hfmt, list_ascii_of_string_length.
  split; intros Hmod.
  - apply Nat.eqb_neq in Hmod. rewrite Hmod. reflexivity.
  - rewrite Hmod. cbn [Nat.eqb]. eexists. split; [reflexivity |].
    unfold Numpy.decode. rewrite list_ascii_of_string_length. split.
    + rewrite length_map, chunks_length. reflexivity.
    + apply Forall_map.
      assert (Hc : Forall (fun c => List.length c = Numpy.itemsize dt)
                     (Numpy.chunks (Numpy.itemsize dt)
                        (String.length data / Numpy.itemsize dt)
                        (list_ascii_of_string data))).
      { apply chunks_sizes. rewrite list_ascii_of_string_length.
        rewrite Nat.mul_comm. apply Nat.Div0.mul_div_le. }
      revert Hc. apply Forall_impl. intros c Hc.
      apply decode_elem_in_range; assumption.
Qed.

(** X5: when a block is read and the preamble names a valid layout,
    [get_curve] returns as many samples as the element size goes into the
    number of payload bytes actually read, each within the range of the
    layout; it raises [ValueError] when the element size does not divide
    that number. *)
Theorem get_curve_sample_count (W : World) (s s' : wstate W)
    (self : TDS3000.t) (meta_len data_len : Z)
    (r0 r1 d l payload nl rb rf rw : string) (dt : Numpy.dtype) :
  PyStr.int d = Some meta_len ->
  PyStr.int l = Some data_len ->
  Numpy.parse_dtype
    (curve_format (PyStr.rstrip rb) (PyStr.rstrip rf) (PyStr.rstrip rw))
    = Some dt ->
  feed W s (block_reads self meta_len data_len ++ preamble_queries self)%list
    = ([Ok r0; Ok r1; Ok "#"; Ok d; Ok l; Ok payload; Ok nl;
        Ok rb; Ok rf; Ok rw], s') ->
  (Nat.modulo (String.length payload) (Numpy.itemsize dt) <> 0%nat ->
   run W (TDS3000.get_curve self) s
   = ((block_reads self meta_len data_len ++ preamble_queries self)%list,
      (self, Raised ValueError), s'))
  /\ (Nat.modulo (String.length payload) (Numpy.itemsize dt) = 0%nat ->
      exists samples,
        run W (TDS3000.get_curve self) s
        = ((block_reads self meta_len data_len ++ preamble_queries self)%list,
           (self, Ok (Numpy.mk_ndarray dt samples)), s')
        /\ List.length samples
           = Nat.div (String.length payload) (Numpy.itemsize dt)
        /\ Forall (in_range dt) samples).
Proof.
  intros Hd Hl Hfmt Hfeed.
  rewrite (get_curve_block_run W s s' self meta_len data_len
             r0 r1 d l payload nl rb rf rw Hd Hl Hfeed).
  destruct (fromstring_shape payload _ dt Hfmt) as [Hbad Hgood].
  split; intros Hmod.
  - rewrite (Hbad Hmod). reflexivity.
  - destruct (Hgood Hmod) as (samples & E & Hn & Hr).
    exists samples. rewrite E. auto.
Qed.

Lemma get_curve_sample_count_witness :
  PyStr.int "1" = Some 1
  /\ PyStr.int "4" = Some 4
  /\ Numpy.parse_dtype
       (curve_format (PyStr.rstrip ("MSB" ++ newline))
          (PyStr.rstrip ("RI" ++ newline)) (PyStr.rstrip ("2" ++ newline)))
     = Some (Numpy.mk_dtype true true 2)
  /\ feed SimScope.world (bench true sample_block)
          (block_reads scope 1 4 ++ preamble_queries scope)%list
     = ([Ok "stale"; Ok ""; Ok "#"; Ok "1"; Ok "4";
         Ok (be_int16 258 ++ be_int16 (-2)); Ok newline;
         Ok ("MSB" ++ newline); Ok ("RI" ++ newline); Ok ("2" ++ newline)],
        bench_after true sample_block "" ["CURV?"])
  /\ exists samples,
       run SimScope.world (TDS3000.get_curve scope) (bench true sample_block)
       = ((block_reads scope 1 4 ++ preamble_queries scope)%list,
          (scope, Ok (Numpy.mk_ndarray (Numpy.mk_dtype true true 2) samples)),
          bench_after true sample_block "" ["CURV?"])
       /\ List.length samples = 2%nat
       /\ Forall (in_range (Numpy.mk_dtype true true 2)) samples.
Proof.
  split; [reflexivity |]. split; [reflexivity |]. split; [reflexivity |].
  split; [reflexivity |].
  apply (proj2 (get_curve_sample_count SimScope.world (bench true sample_block)
                  (bench_after true sample_block "" ["CURV?"]) scope 1 4
                  "stale" "" "1" "4" (be_int16 258 ++ be_int16 (-2)) newline
                  ("MSB" ++ newline) ("RI" ++ newline) ("2" ++ newline)
                  (Numpy.mk_dtype true true 2)
                  eq_refl eq_refl eq_refl eq_refl)).
  reflexivity.
Defined.

(** ** Encoding and decoding samples *)

Lemma be_bytes_length (w : nat) :
  forall u, List.length (be_bytes w u) = w.
Proof.
  induction w as [| w IH]; intros u; cbn [be_bytes]; [reflexivity |].
  rewrite length_app, IH. cbn. lia.
Qed.

Lemma unsigned_be_be_bytes (w : nat) :
  forall u, 0 <= u < 256 ^ Z.of_nat w ->
    Numpy.unsigned_be (be_bytes w u) = u.
Proof.
  induction w as [| w IH]; intros u Hu.
  - cbn in *. lia.
  - cbn [be_bytes]. rewrite unsigned_be_snoc.
    replace (Z.of_nat (S w)) with (Z.of_nat w + 1) in Hu by lia.
    rewrite Z.pow_add_r in Hu by lia. change (256 ^ 1) with 256 in Hu.
    rewrite IH.
    + rewrite byte_val_byte by (apply Z.mod_pos_bound; lia).
      pose proof (Z.div_mod u 256 ltac:(lia)). lia.
    + split; [apply Z.div_pos; lia |].
      apply Z.div_lt_upper_bound; lia.
Qed.

Lemma encode_elem_length (dt : Numpy.dtype) (v : Z) :
  List.length (encode_elem dt v) = Numpy.itemsize dt.
Proof.
  unfold encode_elem. destruct (Numpy.big_endian dt);
    [| rewrite length_rev]; apply be_bytes_length.
Qed.

(** Reading back the bytes of a sample gives the sample. *)
Lemma decode_encode_elem (dt : Numpy.dtype) (v : Z) :
  (0 < Numpy.itemsize dt)%nat ->
  in_range dt v ->
  Numpy.decode_elem dt (encode_elem dt v) = v.
Proof.
  intros Hw Hv. unfold Numpy.decode_elem, encode_elem.
  set (w := Numpy.itemsize dt) in *.
  assert (Hpos : 0 < 256 ^ Z.of_nat w) by (apply Z.pow_pos_nonneg; lia).
  assert (Hu : 0 <= v mod 256 ^ Z.of_nat w < 256 ^ Z.of_nat w)
    by (apply Z.mod_pos_bound; exact Hpos).
  replace (if Numpy.big_endian dt
           then (if Numpy.big_endian dt
                 then be_bytes w (v mod 256 ^ Z.of_nat w)
                 else List.rev (be_bytes w (v mod 256 ^ Z.of_nat w)))
           else List.rev
                  (if Numpy.big_endian dt
                   then be_bytes w (v mod 256 ^ Z.of_nat w)
                   else List.rev (be_bytes w (v mod 256 ^ Z.of_nat w))))
    with (be_bytes w (v mod 256 ^ Z.of_nat w))
    by (destruct (Numpy.big_endian dt); [| rewrite rev_involutive]; reflexivity).
  rewrite unsigned_be_be_bytes by exact Hu.
  unfold in_range in Hv. fold w in Hv. rewrite pow256 in *.
  destruct (Numpy.signed dt).
  - unfold Numpy.to_signed. rewrite (pow2_half w Hw) in *.
    set (h := 2 ^ (8 * Z.of_nat w - 1)) in *.
    destruct (Z_lt_le_dec v 0) as [Hneg | Hnn].
    + replace (v mod (2 * h)) with (v + 2 * h).
      2: { symmetry. rewrite <- (Z_mod_plus_full v 1 (2 * h)).
           rewrite Z.mul_1_l. apply Z.mod_small. lia. }
      destruct (Z.leb_spec h (v + 2 * h)); lia.
    + rewrite Z.mod_small by lia.
      destruct (Z.leb_spec h v); lia.
  - apply Z.mod_small. exact Hv.
Qed.

Lemma chunks_concat (dt : Numpy.dtype) (samples : list Z) :
  (0 < Numpy.itemsize dt)%nat ->
  Numpy.chunks (Numpy.itemsize dt) (List.length samples)
    (List.concat (map (encode_elem dt) samples))
  = map (encode_elem dt) samples.
Proof.
  intros Hw. induction samples as [| v vs IH]; [reflexivity |].
  cbn [List.length map List.concat Numpy.chunks].
  assert (Hf : firstn (Numpy.itemsize dt) (encode_elem dt v) = encode_elem dt v)
    by (rewrite <- (encode_elem_length dt v) at 1; apply firstn_all).
  assert (Hs : skipn (Numpy.itemsize dt) (encode_elem dt v) = [])
    by (rewrite <- (encode_elem_length dt v) at 1; apply skipn_all).
  rewrite firstn_app, skipn_app, encode_elem_length, Nat.sub_diag, Hf, Hs.
  cbn [firstn skipn]. rewrite app_nil_r, app_nil_l, IH. reflexivity.
Qed.

Lemma concat_encode_length (dt : Numpy.dtype) (samples : list Z) :
  List.length (List.concat (map (encode_elem dt) samples))
  = (List.length samples * Numpy.itemsize dt)%nat.
Proof.
  induction samples as [| v vs IH]; [reflexivity |].
  cbn [map List.concat List.length]. rewrite length_app, encode_elem_length, IH.
  lia.
Qed.

(** [numpy.fromstring] undoes [encode]. *)
Lemma fromstring_encode (fmt : string) (dt : Numpy.dtype) (samples : list Z) :
  Numpy.parse_dtype fmt = Some dt ->
  Forall (in_range dt) samples ->
  Numpy.fromstring (encode dt samples) fmt
  = Ok (Numpy.mk_ndarray dt samples).
Proof.
  intros Hfmt Hr. pose proof (parse_dtype_itemsize fmt dt Hfmt) as Hw.
  unfold Numpy.fromstring, encode. rewrite Hfmt.
  rewrite list_ascii_of_string_of_list_ascii, concat_encode_length.
  rewrite Nat.Div0.mod_mul. cbn [Nat.eqb]. f_equal. f_equal.
  unfold Numpy.decode. rewrite concat_encode_length.
  rewrite Nat.div_mul by lia. rewrite chunks_concat by exact Hw.
  rewrite map_map. induction Hr as [| v vs Hv Hvs IH]; [reflexivity |].
  cbn [map]. rewrite decode_encode_elem by assumption. rewrite IH.
  reflexivity.
Qed.

(** X6: whatever the layout the preamble names (byte order, signedness,
    one, two, four or eight bytes per sample) and however many samples,
    when the payload read is the encoding of in-range samples in that
    layout, [get_curve] returns exactly those samples, in order. *)
Theorem get_curve_round_trip (W : World) (s s' : wstate W)
    (self : TDS3000.t) (meta_len data_len : Z)
    (r0 r1 d l nl rb rf rw : string) (dt : Numpy.dtype) (samples : list Z) :
  PyStr.int d = Some meta_len ->
  PyStr.int l = Some data_len ->
  Numpy.parse_dtype
    (curve_format (PyStr.rstrip rb) (PyStr.rstrip rf) (PyStr.rstrip rw))
    = Some dt ->
  Forall (in_range dt) samples ->
  feed W s (block_reads self meta_len data_len ++ preamble_queries self)%list
    = ([Ok r0; Ok r1; Ok "#"; Ok d; Ok l; Ok (encode dt samples); Ok nl;
        Ok rb; Ok rf; Ok rw], s') ->
  run W (TDS3000.get_curve self) s
  = ((block_reads self meta_len data_len ++ preamble_queries self)%list,
     (self, Ok (Numpy.mk_ndarray dt samples)), s').
Proof.
  intros Hd Hl Hfmt Hr Hfeed.
  rewrite (get_curve_block_run W s s' self meta_len data_len
             r0 r1 d l (encode dt samples) nl rb rf rw Hd Hl Hfeed).
  rewrite (fromstring_encode _ dt samples Hfmt Hr). reflexivity.
Qed.

Lemma get_curve_round_trip_witness :
  PyStr.int "1" = Some 1
  /\ PyStr.int "4" = Some 4
  /\ Numpy.parse_dtype
       (curve_format (PyStr.rstrip ("LSB" ++ newline))
          (PyStr.rstrip ("RP" ++ newline)) (PyStr.rstrip ("2" ++ newline)))
     = Some (Numpy.mk_dtype false false 2)
  /\ Forall (in_range (Numpy.mk_dtype false false 2)) [513; 65279]
  /\ feed SimScope.world (bench_lsb "stale" [])
          (block_reads scope 1 4 ++ preamble_queries scope)%list
     = ([Ok "stale"; Ok ""; Ok "#"; Ok "1"; Ok "4";
         Ok (encode (Numpy.mk_dtype false false 2) [513; 65279]); Ok newline;
         Ok ("LSB" ++ newline); Ok ("RP" ++ newline); Ok ("2" ++ newline)],
        bench_lsb "" ["CURV?"])
  /\ run SimScope.world (TDS3000.get_curve scope) (bench_lsb "stale" [])
     = ((block_reads scope 1 4 ++ preamble_queries scope)%list,
        (scope, Ok (Numpy.mk_ndarray (Numpy.mk_dtype false false 2) [513; 65279])),
        bench_lsb "" ["CURV?"]).
Proof.
  assert (Hr : Forall (in_range (Numpy.mk_dtype false false 2)) [513; 65279])
    by (repeat constructor; cbn; lia).
  split; [reflexivity |]. split; [reflexivity |]. split; [reflexivity |].
  split; [exact Hr |]. split; [reflexivity |].
  apply (get_curve_round_trip SimScope.world (bench_lsb "stale" [])
           (bench_lsb "" ["CURV?"]) scope 1 4
           "stale" "" "1" "4" newline
           ("LSB" ++ newline) ("RP" ++ newline) ("2" ++ newline)
           (Numpy.mk_dtype false false 2) [513; 65279]
           eq_refl eq_refl eq_refl Hr eq_refl).
Defined.

(** X7: when the first read after [CURV?] returns nothing at all (nothing
    arrived on the bus) and the preamble names a valid layout, [get_curve]
    raises nothing: it returns an empty waveform. *)
Theorem get_curve_empty_reply (W : World) (s s' : wstate W)
    (self : TDS3000.t) (r0 r1 rb rf rw : string) (dt : Numpy.dtype) :
  Numpy.parse_dtype
    (curve_format (PyStr.rstrip rb) (PyStr.rstrip rf) (PyStr.rstrip rw))
    = Some dt ->
  feed W s (direct_reads self ++ preamble_queries self)%list
    = ([Ok r0; Ok r1; Ok ""; Ok rb; Ok rf; Ok rw], s') ->
  run W (TDS3000.get_curve self) s
  = ((direct_reads self ++ preamble_queries self)%list,
     (self, Ok (Numpy.mk_ndarray dt [])), s').
Proof.
  intros Hfmt Hfeed.
  rewrite (get_curve_direct_run W s s' self r0 r1 "" rb rf rw
             ltac:(discriminate) Hfeed).
  unfold Numpy.fromstring. rewrite Hfmt. cbn [list_ascii_of_string List.length].
  pose proof (parse_dtype_itemsize _ dt Hfmt) as Hw.
  rewrite Nat.Div0.mod_0_l. cbn [Nat.eqb]. unfold Numpy.decode.
  cbn [List.length]. rewrite Nat.Div0.div_0_l. reflexivity.
Qed.

Lemma get_curve_empty_reply_witness :
  Numpy.parse_dtype
    (curve_format (PyStr.rstrip ("MSB" ++ newline))
       (PyStr.rstrip ("RI" ++ newline)) (PyStr.rstrip ("2" ++ newline)))
    = Some (Numpy.mk_dtype true true 2)
  /\ feed SimScope.world (bench true "")
          (direct_reads scope ++ preamble_queries scope)%list
     = ([Ok "stale"; Ok ""; Ok "";
         Ok ("MSB" ++ newline); Ok ("RI" ++ newline); Ok ("2" ++ newline)],
        bench_after true "" "" ["CURV?"])
  /\ run SimScope.world (TDS3000.get_curve scope) (bench true "")
     = ((direct_reads scope ++ preamble_queries scope)%list,
        (scope, Ok (Numpy.mk_ndarray (Numpy.mk_dtype true true 2) [])),
        bench_after true "" "" ["CURV?"]).
Proof.
  split; [reflexivity |]. split; [reflexivity |].
  apply (get_curve_empty_reply SimScope.world (bench true "")
           (bench_after true "" "" ["CURV?"]) scope "stale" ""
           ("MSB" ++ newline) ("RI" ++ newline) ("2" ++ newline)
           (Numpy.mk_dtype true true 2) eq_refl eq_refl).
Defined.

(** ** What [set_timediv] can write *)

(** A float equal to a finite non-zero float is that float. *)
Lemma eqb_finite_eq (x y : PyFloat.float) :
  is_finite x = true -> PyFloat.eqb x y = true -> y = x.
Proof.
  destruct x as [| | | sx mx ex]; try discriminate. intros _.
  unfold PyFloat.eqb, SFeqb, SFcompare.
  destruct y as [sy | sy | | sy my ey]; try (destruct sx; discriminate);
    try (destruct sx, sy; discriminate).
  change (Pos.compare_cont Eq mx my) with (Pos.compare mx my).
  destruct sx, sy; try discriminate;
    destruct (Z.compare_spec ex ey) as [E | E | E]; try discriminate;
    destruct (Pos.compare_spec mx my) as [E' | E' | E']; try discriminate;
    intros _; subst; reflexivity.
Qed.

Lemma accepted_values_finite :
  forallb (fun v => is_finite (Py.to_float v)) TDS3000._acceptable_timedivs
  = true.
Proof. vm_compute. reflexivity. Qed.

(** A float that passes the membership test is one of the accepted
    values. *)
Lemma contains_accepted (x : PyFloat.float) :
  Py.contains TDS3000._acceptable_timedivs x = true ->
  exists v, In v TDS3000._acceptable_timedivs /\ x = Py.to_float v.
Proof.
  unfold Py.contains. intros H. apply existsb_exists in H.
  destruct H as (v & Hin & Heq). exists v. split; [exact Hin |].
  apply eqb_finite_eq; [| exact Heq].
  exact (proj1 (forallb_forall _ _) accepted_values_finite v Hin).
Qed.

(** X8: for every finite non-zero argument and whatever the world,
    [set_timediv] either makes no bus call at all and raises the
    [InstrumentError] that lists the accepted values, or makes exactly one
    call, the write of one of the 31 commands of the accepted values; it
    never reads from the bus. *)
Theorem set_timediv_writes_known_commands (W : World) (s : wstate W)
    (self : TDS3000.t) (to : PyFloat.float) :
  is_finite to = true ->
  (run W (TDS3000.set_timediv to self) s
   = ([], (self, Raised (InstrumentError timediv_message)), s))
  \/ (exists command,
        In command timediv_commands
        /\ calls (run W (TDS3000.set_timediv to self) s)
           = [(TDS3000.bus self, Write command)]).
Proof.
  intros _.
  destruct (Py.contains TDS3000._acceptable_timedivs (Util.sciround to 1))
    eqn:Hin.
  - right. destruct (contains_accepted _ Hin) as (v & Hv & Ev).
    exists (timediv_command (Py.to_float v)). split.
    + unfold timediv_commands.
      apply (in_map (fun v => timediv_command (Py.to_float v))). exact Hv.
    + destruct (handle W s (TDS3000.bus self)
                  (Write (timediv_command (Util.sciround to 1))))
        as [reply s1] eqn:Hh.
      rewrite (set_timediv_accepts W s s1 self to reply Hin Hh).
      rewrite Ev. reflexivity.
  - left. apply set_timediv_rejects. exact Hin.
Qed.

Lemma set_timediv_writes_known_commands_witness :
  is_finite (PyFloat.lit 15 0) = true
  /\ ((run SimScope.world (TDS3000.set_timediv (PyFloat.lit 15 0) scope)
          (bench true "")
       = ([], (scope, Raised (InstrumentError timediv_message)), bench true ""))
      \/ (exists command,
            In command timediv_commands
            /\ calls (run SimScope.world
                        (TDS3000.set_timediv (PyFloat.lit 15 0) scope)
                        (bench true ""))
               = [(TDS3000.bus scope, Write command)])).
Proof.
  split; [reflexivity |].
  apply (set_timediv_writes_known_commands SimScope.world (bench true "") scope
           (PyFloat.lit 15 0)).
  reflexivity.
Defined.

(** ** Setting, then reading, the time per division *)

Lemma rstrip_space (ws : string) :
  all_space ws = true -> PyStr.rstrip ws = EmptyString.
Proof.
  unfold all_space. induction ws as [| c ws IH]; cbn [list_ascii_of_string forallb];
    [reflexivity |].
  intros H. apply andb_prop in H. destruct H as [Hc Hws].
  cbn [PyStr.rstrip]. rewrite (IH Hws), Hc. reflexivity.
Qed.

(** Whitespace after a text does not survive [rstrip]. *)
Lemma rstrip_app_space (t ws : string) :
  all_space ws = true -> PyStr.rstrip (t ++ ws) = PyStr.rstrip t.
Proof.
  intros Hws. induction t as [| c t IH].
  - cbn [append]. rewrite (rstrip_space ws Hws). reflexivity.
  - cbn [append PyStr.rstrip]. rewrite IH. reflexivity.
Qed.

Lemma accepted_values_read_back :
  forallb reads_back TDS3000._acceptable_timedivs = true.
Proof. vm_compute. reflexivity. Qed.

(** X9: when [set_timediv] accepts a value and the instrument then answers
    the query with the text it was sent, followed by any whitespace,
    [get_timediv] returns exactly the rounded value that was set. *)
Theorem timediv_set_then_get (W : World) (s s1 s2 : wstate W)
    (self : TDS3000.t) (to : PyFloat.float) (r ws : string) :
  Py.contains TDS3000._acceptable_timedivs (Util.sciround to 1) = true ->
  handle W s (TDS3000.bus self) (Write (timediv_command (Util.sciround to 1)))
    = (Ok r, s1) ->
  all_space ws = true ->
  handle W s1 (TDS3000.bus self) (Ask "HOR:MAI:SCA?")
    = (Ok (PyFloat.format_0E (Util.sciround to 1) ++ ws), s2) ->
  run W (set_then_get to self) s
  = ([(TDS3000.bus self, Write (timediv_command (Util.sciround to 1)));
      (TDS3000.bus self, Ask "HOR:MAI:SCA?")],
     (self, Ok (Util.sciround to 1)), s2).
Proof.
  intros Hin Hw Hws Ha.
  unfold set_then_get, bind. rewrite run_bind.
  rewrite (set_timediv_accepts W s s1 self to (Ok r) Hin Hw).
  cbn [result_map].
  destruct (contains_accepted _ Hin) as (v & Hv & Ev).
  pose proof (proj1 (forallb_forall _ _) accepted_values_read_back v Hv) as Hb.
  unfold reads_back in Hb. rewrite <- Ev in Hb.
  destruct (PyFloat.of_string (PyStr.rstrip (PyFloat.format_0E (Util.sciround to 1))))
    as [x |] eqn:Hp; [| discriminate].
  apply float_same_eq in Hb. subst x.
  unfold TDS3000.get_timediv, bind, bus_call, lift. cbn [action_bind run].
  rewrite Ha. cbn [action_bind run].
  rewrite rstrip_app_space by exact Hws. rewrite Hp. reflexivity.
Qed.

Lemma timediv_set_then_get_witness :
  Py.contains TDS3000._acceptable_timedivs
    (Util.sciround (PyFloat.lit 198 (-5)) 1) = true
  /\ handle EchoScope.world "" (TDS3000.bus scope)
            (Write (timediv_command (Util.sciround (PyFloat.lit 198 (-5)) 1)))
     = (Ok "", "2E-03")
  /\ all_space newline = true
  /\ handle EchoScope.world "2E-03" (TDS3000.bus scope) (Ask "HOR:MAI:SCA?")
     = (Ok (PyFloat.format_0E (Util.sciround (PyFloat.lit 198 (-5)) 1) ++ newline),
        "2E-03")
  /\ run EchoScope.world (set_then_get (PyFloat.lit 198 (-5)) scope) ""
     = ([(BusObject 1, Write "HOR:MAI:SCA 2E-03");
         (BusObject 1, Ask "HOR:MAI:SCA?")],
        (scope, Ok (PyFloat.lit 2 (-3))), "2E-03").
Proof.
  split; [vm_compute; reflexivity |]. split; [vm_compute; reflexivity |].
  split; [reflexivity |]. split; [vm_compute; reflexivity |].
  apply (timediv_set_then_get EchoScope.world "" "2E-03" "2E-03" scope
           (PyFloat.lit 198 (-5)) "" newline).
  - vm_compute. reflexivity.
  - vm_compute. reflexivity.
  - reflexivity.
  - vm_compute. reflexivity.
Defined.

(** X10: when the answer to [HOR:MAI:SCA?] does not read as a float (an
    empty answer, for one), [get_timediv] raises [ValueError], having made
    that one query. *)
Theorem get_timediv_unreadable (W : World) (s s1 : wstate W)
    (self : TDS3000.t) (reply : string) :
  handle W s (TDS3000.bus self) (Ask "HOR:MAI:SCA?") = (Ok reply, s1) ->
  PyFloat.of_string (PyStr.rstrip reply) = None ->
  run W (TDS3000.get_timediv self) s
  = ([(TDS3000.bus self, Ask "HOR:MAI:SCA?")], (self, Raised ValueError), s1).
Proof.
  intros H Hx.
  unfold TDS3000.get_timediv, bind, bus_call, lift. cbn [action_bind run].
  rewrite H. cbn [action_bind run]. rewrite Hx. reflexivity.
Qed.

Lemma get_timediv_unreadable_witness :
  handle EchoScope.world "" (TDS3000.bus scope) (Ask "HOR:MAI:SCA?")
    = (Ok newline, "")
  /\ PyFloat.of_string (PyStr.rstrip newline) = None
  /\ run EchoScope.world (TDS3000.get_timediv scope) ""
     = ([(BusObject 1, Ask "HOR:MAI:SCA?")], (scope, Raised ValueError), "").
Proof.
  split; [reflexivity |]. split; [reflexivity |].
  apply (get_timediv_unreadable EchoScope.world "" "" scope newline);
    reflexivity.
Defined.

(** ** One waveform after another *)

(** X12: the preamble is queried anew for every waveform: when two
    waveforms are fetched one after the other, each block is decoded with
    the preamble answers given after that block was read, so a layout
    changed between the two acquisitions applies to the second only. *)
Theorem get_curve_twice_fresh_preamble (W : World) (s s1 s2 : wstate W)
    (self : TDS3000.t) (m1 n1 m2 n2 : Z)
    (q1 q1' d1 l1 p1 nl1 rb1 rf1 rw1 : string)
    (q2 q2' d2 l2 p2 nl2 rb2 rf2 rw2 : string) (first : Numpy.ndarray) :
  PyStr.int d1 = Some m1 ->
  PyStr.int l1 = Some n1 ->
  PyStr.int d2 = Some m2 ->
  PyStr.int l2 = Some n2 ->
  feed W s (block_reads self m1 n1 ++ preamble_queries self)%list
    = ([Ok q1; Ok q1'; Ok "#"; Ok d1; Ok l1; Ok p1; Ok nl1;
        Ok rb1; Ok rf1; Ok rw1], s1) ->
  feed W s1 (block_reads self m2 n2 ++ preamble_queries self)%list
    = ([Ok q2; Ok q2'; Ok "#"; Ok d2; Ok l2; Ok p2; Ok nl2;
        Ok rb2; Ok rf2; Ok rw2], s2) ->
  Numpy.fromstring p1
    (curve_format (PyStr.rstrip rb1) (PyStr.rstrip rf1) (PyStr.rstrip rw1))
    = Ok first ->
  run W (get_curve_twice self) s
  = (((block_reads self m1 n1 ++ preamble_queries self)
      ++ (block_reads self m2 n2 ++ preamble_queries self))%list,
     (self,
      result_map (pair first)
        (Numpy.fromstring p2
           (curve_format (PyStr.rstrip rb2) (PyStr.rstrip rf2)
              (PyStr.rstrip rw2)))),
     s2).
Proof.
  intros Hd1 Hl1 Hd2 Hl2 Hf1 Hf2 Hfirst.
  unfold get_curve_twice, bind. rewrite run_bind.
  rewrite (get_curve_block_run W s s1 self m1 n1 q1 q1' d1 l1 p1 nl1
             rb1 rf1 rw1 Hd1 Hl1 Hf1).
  rewrite Hfirst. rewrite run_bind.
  rewrite (get_curve_block_run W s1 s2 self m2 n2 q2 q2' d2 l2 p2 nl2
             rb2 rf2 rw2 Hd2 Hl2 Hf2).
  destruct (Numpy.fromstring p2 _); reflexivity.
Qed.

(** The same four bytes, fetched twice from an instrument switched from
    big-endian to little-endian in between. *)
Lemma get_curve_twice_fresh_preamble_witness :
  PyStr.int "1" = Some 1
  /\ PyStr.int "4" = Some 4
  /\ feed Scripted.world
          (acquisition (be_int16 258 ++ be_int16 (-2)) "MSB" "RI" "2"
           ++ acquisition (be_int16 258 ++ be_int16 (-2)) "LSB" "RI" "2")%list
          (block_reads scope 1 4 ++ preamble_queries scope)%list
     = (acquisition (be_int16 258 ++ be_int16 (-2)) "MSB" "RI" "2",
        acquisition (be_int16 258 ++ be_int16 (-2)) "LSB" "RI" "2")
  /\ feed Scripted.world
          (acquisition (be_int16 258 ++ be_int16 (-2)) "LSB" "RI" "2")
          (block_reads scope 1 4 ++ preamble_queries scope)%list
     = (acquisition (be_int16 258 ++ be_int16 (-2)) "LSB" "RI" "2", [])
  /\ Numpy.fromstring (be_int16 258 ++ be_int16 (-2))
       (curve_format (PyStr.rstrip ("MSB" ++ newline))
          (PyStr.rstrip ("RI" ++ newline)) (PyStr.rstrip ("2" ++ newline)))
     = Ok (Numpy.mk_ndarray (Numpy.mk_dtype true true 2) [258; -2])
  /\ run Scripted.world (get_curve_twice scope)
         (acquisition (be_int16 258 ++ be_int16 (-2)) "MSB" "RI" "2"
          ++ acquisition (be_int16 258 ++ be_int16 (-2)) "LSB" "RI" "2")%list
     = (((block_reads scope 1 4 ++ preamble_queries scope)
         ++ (block_reads scope 1 4 ++ preamble_queries scope))%list,
        (scope,
         Ok (Numpy.mk_ndarray (Numpy.mk_dtype true true 2) [258; -2],
             Numpy.mk_ndarray (Numpy.mk_dtype false true 2) [513; -257])),
        []).
Proof.
  split; [reflexivity |]. split; [reflexivity |]. split; [reflexivity |].
  split; [reflexivity |]. split; [reflexivity |].
  apply (get_curve_twice_fresh_preamble Scripted.world
           (acquisition (be_int16 258 ++ be_int16 (-2)) "MSB" "RI" "2"
            ++ acquisition (be_int16 258 ++ be_int16 (-2)) "LSB" "RI" "2")%list
           (acquisition (be_int16 258 ++ be_int16 (-2)) "LSB" "RI" "2")
           [] scope 1 4 1 4
           "" "" "1" "4" (be_int16 258 ++ be_int16 (-2)) newline
           ("MSB" ++ newline) ("RI" ++ newline) ("2" ++ newline)
           "" "" "1" "4" (be_int16 258 ++ be_int16 (-2)) newline
           ("LSB" ++ newline) ("RI" ++ newline) ("2" ++ newline)
           (Numpy.mk_ndarray (Numpy.mk_dtype true true 2) [258; -2]));
    reflexivity.
Defined.
